(** * SEO website audit: the analysis pipeline of [SEOAnalyzer]

    A shallow embedding of the class [SEOAnalyzer] (scrape, performance
    report, content extraction, factor rules, score) and the properties of
    its specification, then of the handler and the display helpers of the
    component [App] that calls it.

    Conventions of the embedding.
    - A JavaScript [number] is an IEEE-754 binary64 value: [spec_float] with
      53 bits of precision, and the operations of [SpecFloat], which round to
      nearest, ties to even.  A decimal literal is the correctly rounded
      quotient of two integers.
    - Lengths and counts ([s.length], [a.length], [filter(..).length]) are
      [nat]; integer arithmetic on them is done in [Z] and injected with
      [of_Z], which is what binary64 computes as long as the integers stay
      below 2^53 (array lengths are below 2^32).
    - A string is a [string] whose characters are code units below 256.
    - [undefined] and [null] are [None].
    - What the class takes from its platform is a [runtime] record: the URL
      parser, the printing of numbers, the two [blink.data] collaborators and
      [Math.random].
    - An [async] method is a computation in [M]: it threads the [world]
      (the log of observable events and the number of random draws) and ends
      in a value or in a thrown exception. *)

From Stdlib Require Import ZArith QArith Qround Lia Bool List String Ascii.
From Stdlib Require Import Floats.SpecFloat.
From Stdlib Require Floats.
Import ListNotations.
Close Scope Q_scope.

Local Open Scope string_scope.
Local Open Scope Z_scope.

(** ** Numbers *)

Module Num.

Definition prec : Z := 53.
Definition emax : Z := 1024.

Definition number : Type := spec_float.

Definition of_Z (z : Z) : number := binary_normalize prec emax z 0 false.
Definition of_nat (n : nat) : number := of_Z (Z.of_nat n).

Definition add : number -> number -> number := SFadd prec emax.
Definition sub : number -> number -> number := SFsub prec emax.
Definition mul : number -> number -> number := SFmul prec emax.
Definition div : number -> number -> number := SFdiv prec emax.

(** The literal [m / 10^k], e.g. [lit 206835 3] for [206.835]. *)
Definition lit (m : Z) (k : Z) : number := div (of_Z m) (of_Z (10 ^ k)).

(** [ToBoolean]: [0], [-0] and [NaN] are falsy. *)
Definition truthy (x : number) : bool :=
  match x with
  | S754_zero _ | S754_nan => false
  | _ => true
  end.

(** [a <= b] and [a >= b]; false when an operand is [NaN]. *)
Definition leb (a b : number) : bool := SFleb a b.
Definition geb (a b : number) : bool := SFleb b a.

(** [Math.max]: [NaN] if an argument is, and [+0] is larger than [-0]. *)
Definition Math_max (a b : number) : number :=
  match SFcompare a b with
  | None => S754_nan
  | Some Lt => b
  | Some Gt => a
  | Some Eq => match a with S754_zero true => b | _ => a end
  end.

(** [Math.min]: [NaN] if an argument is, and [-0] is smaller than [+0]. *)
Definition Math_min (a b : number) : number :=
  match SFcompare a b with
  | None => S754_nan
  | Some Lt => a
  | Some Gt => b
  | Some Eq => match a with S754_zero false => b | _ => a end
  end.

(** [Math.round]: the integer nearest to [x], ties towards +infinity;
    [x = m * 2^e] with [e < 0] gives [floor ((2m + 2^-e) / 2^(1-e))], and the
    sign of [x] is kept when the result is zero. *)
Definition Math_round (x : number) : number :=
  match x with
  | S754_finite s m e =>
      if 0 <=? e then x
      else
        let n := if s then Zneg m else Zpos m in
        let z := (2 * n + 2 ^ (- e)) / 2 ^ (1 - e) in
        if z =? 0 then S754_zero s else of_Z z
  | _ => x
  end.

(** Structural equality of two numbers (it tells [+0] from [-0]). *)
Definition same (a b : number) : bool :=
  match a, b with
  | S754_zero s, S754_zero t => Bool.eqb s t
  | S754_infinity s, S754_infinity t => Bool.eqb s t
  | S754_nan, S754_nan => true
  | S754_finite s m e, S754_finite t n f =>
      Bool.eqb s t && Pos.eqb m n && Z.eqb e f
  | _, _ => false
  end.

End Num.

Import Num.

(** ** Strings *)

Definition code (c : ascii) : N := N_of_ascii c.

(** [\s] on code units below 256: TAB, LF, VT, FF, CR, SP, NBSP. *)
Definition isWhitespace (c : ascii) : bool :=
  let n := code c in
  ((9 <=? n) && (n <=? 13) || (n =? 32) || (n =? 160))%N.

(** What [.] refuses, and where [^] and [$] anchor under the [m] flag. *)
Definition isLineTerminator (c : ascii) : bool :=
  let n := code c in ((n =? 10) || (n =? 13))%N.

Definition isChar (a c : ascii) : bool := Ascii.eqb a c.

(** [s.startsWith(p)]. *)
Fixpoint startsWith (p s : string) : bool :=
  match p, s with
  | EmptyString, _ => true
  | String a p', String b s' => Ascii.eqb a b && startsWith p' s'
  | String _ _, EmptyString => false
  end.

(** [s.includes(p)]. *)
Fixpoint includes (p s : string) : bool :=
  startsWith p s ||
  match s with
  | EmptyString => false
  | String _ s' => includes p s'
  end.

Fixpoint dropWhile (f : ascii -> bool) (s : string) : string :=
  match s with
  | String c s' => if f c then dropWhile f s' else s
  | EmptyString => EmptyString
  end.

Fixpoint takeWhile (f : ascii -> bool) (s : string) : string :=
  match s with
  | String c s' => if f c then String c (takeWhile f s') else EmptyString
  | EmptyString => EmptyString
  end.

Fixpoint rev_string (s acc : string) : string :=
  match s with
  | EmptyString => acc
  | String c s' => rev_string s' (String c acc)
  end.

(** [s.trim()]. *)
Definition trim (s : string) : string :=
  let t := dropWhile isWhitespace s in
  rev_string (dropWhile isWhitespace (rev_string t "")) "".

(** [s.split(re)] for a regular expression [re = [sep]+]: the segments
    between the maximal runs of separators.  [cur] is the segment being read
    and [inRun] says that the previous character was a separator. *)
Fixpoint split_runs (sep : ascii -> bool) (cur : string) (inRun : bool)
    (s : string) : list string :=
  match s with
  | EmptyString => [cur]
  | String c s' =>
      if sep c then
        if inRun then split_runs sep "" true s'
        else cur :: split_runs sep "" true s'
      else split_runs sep (cur ++ String c "") false s'
  end.

Definition split (sep : ascii -> bool) (s : string) : list string :=
  split_runs sep "" false s.

(** The characters before the first [stop], and what follows it. *)
Fixpoint upTo (stop : ascii) (s : string) : option (string * string) :=
  match s with
  | EmptyString => None
  | String c s' =>
      if Ascii.eqb c stop then Some ("", s')
      else match upTo stop s' with
           | Some (a, r) => Some (String c a, r)
           | None => None
           end
  end.

(** ** Data model *)

Inductive Impact := high | medium | low.
Inductive Status := pass | fail | warning.

(** The type [string | number] of [SEOFactor.value]. *)
Inductive Value :=
  | VString (s : string)
  | VNumber (n : number).

Module SEOFactor.
Record t := mk {
  title : string;
  description : string;
  impact : Impact;
  category : string;
  value : option Value;
  status : option Status
}.
End SEOFactor.

Module CoreWebVitals.
Record t := mk { lcp : number; fid : number; cls : number }.
End CoreWebVitals.

Module TechnicalMetrics.
Record t := mk {
  pageSpeed : number;
  mobileScore : number;
  httpsEnabled : bool;
  metaTagsCount : nat;
  headingsStructure : bool;
  imageOptimization : number;
  coreWebVitals : CoreWebVitals.t;
  seoScore : number;
  accessibility : number;
  bestPractices : number;
  performance : number
}.
End TechnicalMetrics.

Module Heading.
Record t := mk { level : nat; text : string }.
End Heading.

Module Image.
Record t := mk { src : string; alt : string; hasAlt : bool }.
End Image.

Module Link.
Record t := mk { href : string; text : string; isInternal : bool }.
End Link.

Module PageContent.
Record t := mk {
  title : string;
  metaDescription : string;
  headings : list Heading.t;
  images : list Image.t;
  links : list Link.t;
  wordCount : nat;
  readabilityScore : number
}.
End PageContent.

Module StructuredData.
Record t := mk { hasSchema : bool; types : list string; errors : list string }.
End StructuredData.

Module SocialMedia.
Record t := mk {
  hasOpenGraph : bool;
  hasTwitterCards : bool;
  ogTitle : option string;
  ogDescription : option string;
  ogImage : option string
}.
End SocialMedia.

Module AuditResult.
Record t := mk {
  score : number;
  url : string;
  positiveFactors : list SEOFactor.t;
  negativeFactors : list SEOFactor.t;
  recommendations : list SEOFactor.t;
  technicalMetrics : TechnicalMetrics.t;
  pageContent : PageContent.t;
  structuredData : StructuredData.t;
  socialMedia : SocialMedia.t
}.
End AuditResult.

(** The [metadata] object of a scrape ([any] in the source): the properties
    the class reads, each a string when it is there, and the names of the
    other own properties, which only [Object.keys] sees. *)
Module Metadata.
Record t := mk {
  url : option string;
  title : option string;
  description : option string;
  jsonLd : option (list string);
  ogTitle : option string;
  ogDescription : option string;
  ogImage : option string;
  twitterCard : option string;
  twitterTitle : option string;
  otherKeys : list string
}.
End Metadata.

(** What [blink.data.scrape] resolves to; [links] and [extract] are never
    read by the class. *)
Module Scrape.
Record t := mk { markdown : string; metadata : option Metadata.t }.
End Scrape.

(** The performance report: [lighthouseResult?.categories?.x?.score] and
    [lighthouseResult?.audits?.[x]?.numericValue]. *)
Module Report.
Record categories := mkCategories {
  cat_performance : option (option number);
  cat_accessibility : option (option number);
  cat_best_practices : option (option number);
  cat_seo : option (option number)
}.
Record audits := mkAudits {
  largest_contentful_paint : option (option number);
  first_input_delay : option (option number);
  cumulative_layout_shift : option (option number)
}.
Record lighthouse := mkLighthouse {
  lh_categories : option categories;
  lh_audits : option audits
}.
Record t := mk { lighthouseResult : option lighthouse }.
End Report.

(** The request and the response of [blink.data.fetch]. *)
Module Fetch.
Record request := mkRequest {
  req_url : string;
  req_method : string;
  req_query : list (string * string)
}.
Record response := mkResponse { status : Z; body : option Report.t }.
End Fetch.

(** The result of [new URL(s)]: its serialization ([toString()]) and its
    [hostname]. *)
Module URL.
Record t := mk { toString : string; hostname : string }.
End URL.

(** ** Exceptions, platform and effects *)

(** A thrown value: the name of its class and its message. *)
Inductive exn := Throw (name : string) (message : string).

Definition TypeError (message : string) : exn := Throw "TypeError" message.
Definition Error (message : string) : exn := Throw "Error" message.

Definition result (A : Type) : Type := (exn + A)%type.

Record runtime := mkRuntime {
  (** [new URL(s)]; [None] when the constructor throws its [TypeError]. *)
  URL_parse : string -> option URL.t;
  (** [String(x)] in a template literal, and [x.toFixed(1)]. *)
  Number_toString : number -> string;
  Number_toFixed1 : number -> string;
  (** [blink.data.scrape(url)] and [blink.data.fetch(request)]: the promise
      is fulfilled ([inr]) or rejected ([inl]). *)
  blink_data_scrape : string -> result Scrape.t;
  blink_data_fetch : Fetch.request -> result Fetch.response;
  (** The [k]-th value that [Math.random()] returns. *)
  Math_random : nat -> number
}.

Inductive event :=
  | Progress (percent : Z)
  | ScrapeCall (url : string)
  | FetchCall (request : Fetch.request)
  | ConsoleError (label : string) (error : exn).

Record world := mkWorld { log : list event; draws : nat }.

Definition M (A : Type) : Type := world -> world * result A.

Definition ret {A} (a : A) : M A := fun w => (w, inr a).
Definition throw {A} (e : exn) : M A := fun w => (w, inl e).
Definition bind {A B} (m : M A) (k : A -> M B) : M B :=
  fun w => match m w with
           | (w', inr a) => k a w'
           | (w', inl e) => (w', inl e)
           end.
(** [try { m } catch (error) { h error }]. *)
Definition try_catch {A} (m : M A) (h : exn -> M A) : M A :=
  fun w => match m w with
           | (w', inr a) => (w', inr a)
           | (w', inl e) => h e w'
           end.
Definition lift {A} (r : result A) : M A := fun w => (w, r).
Definition emit (ev : event) : M unit :=
  fun w => (mkWorld (log w ++ [ev]) (draws w), inr tt).

Declare Scope js_scope.
Delimit Scope js_scope with js.
Notation "x <- m ;; k" := (bind m (fun x => k))
  (at level 100, m at next level, right associativity) : js_scope.
Notation "m ;;; k" := (bind m (fun _ => k))
  (at level 100, right associativity) : js_scope.

(** Binding in [result], for the code that throws but has no other effect. *)
Definition rbind {A B} (r : result A) (k : A -> result B) : result B :=
  match r with
  | inr a => k a
  | inl e => inl e
  end.
Notation "'try!' x := r 'in' k" := (rbind r (fun x => k))
  (at level 100, x name, r at next level, right associativity) : js_scope.

(** [x || d] on an optional string: the empty string is falsy. *)
Definition str_or (x : option string) (d : string) : string :=
  match x with
  | Some s => if String.eqb s "" then d else s
  | None => d
  end.

(** [x || d] on an optional number. *)
Definition num_or (x : option number) (d : number) : number :=
  match x with
  | Some n => if truthy n then n else d
  | None => d
  end.

(** [!!x] on an optional string. *)
Definition str_truthy (x : option string) : bool :=
  match x with
  | Some s => negb (String.eqb s "")
  | None => false
  end.

(** ** Content extractor: [analyzePageContent] *)

(** [re.exec] in a [while] loop under the [g] flag: the matches of a pattern
    from left to right, the search resuming where the last match ended.
    [matchAt s] is the match that starts at the head of [s] and the number of
    characters it takes; [skip] counts what is left of the current match. *)
Fixpoint scan {A} (matchAt : string -> option (A * nat)) (skip : nat)
    (s : string) : list A :=
  match s with
  | EmptyString => []
  | String _ s' =>
      match skip with
      | S k => scan matchAt k s'
      | O =>
          match matchAt s with
          | Some (a, n) => a :: scan matchAt (n - 1) s'
          | None => scan matchAt 0 s'
          end
      end
  end.

(** The last character of a whitespace run that [.] accepts, and its index,
    the first character of the run left to [\s+]. *)
Fixpoint lastNonTerminator (i : nat) (s : string) : option (nat * ascii) :=
  match s with
  | EmptyString => None
  | String c s' =>
      match lastNonTerminator (S i) s' with
      | Some r => Some r
      | None =>
          if negb (isLineTerminator c) && (1 <=? i)%nat then Some (i, c)
          else None
      end
  end.

(** [/^(#{1,6})\s+(.+)$/] at a line start: one to six [#] (a seventh makes
    [\s+] fail), a whitespace run, then the rest of the line.  When the run
    reaches the end of the input, [\s+] gives characters back until [.+]
    finds one that is not a line terminator. *)
Definition heading_at (s : string) : option (Heading.t * nat) :=
  let k := String.length (takeWhile (isChar "#") s) in
  if ((1 <=? k) && (k <=? 6))%nat then
    let rest := dropWhile (isChar "#") s in
    let ws := takeWhile isWhitespace rest in
    match ws, dropWhile isWhitespace rest with
    | EmptyString, _ => None
    | _, String _ _ as after =>
        let body := takeWhile (fun c => negb (isLineTerminator c)) after in
        Some (Heading.mk k (trim body),
              (k + String.length ws + String.length body)%nat)
    | _, EmptyString =>
        match lastNonTerminator 0 ws with
        | Some (p, c) => Some (Heading.mk k (trim (String c "")), (k + p + 1)%nat)
        | None => None
        end
    end
  else None.

(** The [m] flag: [^] holds at the start of the input and after a line
    terminator; [lineStart] says whether it holds at the head of [s]. *)
Fixpoint scanHeadings (lineStart : bool) (skip : nat) (s : string)
    : list Heading.t :=
  match s with
  | EmptyString => []
  | String c s' =>
      match skip with
      | S k => scanHeadings (isLineTerminator c) k s'
      | O =>
          if lineStart then
            match heading_at s with
            | Some (h, n) => h :: scanHeadings (isLineTerminator c) (n - 1) s'
            | None => scanHeadings (isLineTerminator c) 0 s'
            end
          else scanHeadings (isLineTerminator c) 0 s'
      end
  end.

(** The image pattern: [!], [[], a possibly empty run without []], then
    [](], a non-empty run without [)], and [)]. *)
Definition image_at (s : string) : option (Image.t * nat) :=
  match s with
  | String "!" (String "[" r) =>
      match upTo "]" r with
      | Some (alt, String "(" r') =>
          match upTo ")" r' with
          | Some (String c src', _) =>
              let src := String c src' in
              Some (Image.mk src alt (0 <? String.length alt)%nat,
                    (String.length alt + String.length src + 5)%nat)
          | _ => None
          end
      | _ => None
      end
  | _ => None
  end.

(** The link pattern: the image pattern without its [!] and with a
    non-empty first run; the text and the href of a link. *)
Definition link_at (s : string) : option ((string * string) * nat) :=
  match s with
  | String "[" r =>
      match upTo "]" r with
      | Some (String t text', String "(" r') =>
          let text := String t text' in
          match upTo ")" r' with
          | Some (String c href', _) =>
              let href := String c href' in
              Some ((text, href),
                    (String.length text + String.length href + 4)%nat)
          | _ => None
          end
      | _ => None
      end
  | _ => None
  end.

Definition invalidURL : exn := TypeError "Invalid URL".
Definition undefinedProperty (p : string) : exn :=
  TypeError ("Cannot read properties of undefined (reading '" ++ p ++ "')").

(** [new URL(s)]. *)
Definition new_URL (rt : runtime) (s : string) : result URL.t :=
  match URL_parse rt s with
  | Some u => inr u
  | None => inl invalidURL
  end.

(** [metadata.p] for a [metadata] that may be [undefined]. *)
Definition property {A} (metadata : option Metadata.t) (p : string)
    (get : Metadata.t -> A) : result A :=
  match metadata with
  | Some m => inr (get m)
  | None => inl (undefinedProperty p)
  end.

(** One turn of the link loop.  [||] evaluates its right operand, and with
    it [new URL(metadata.url || '')], only for an href that starts with
    [http]. *)
Definition link_of (rt : runtime) (metadata : option Metadata.t)
    (m : string * string) : result Link.t :=
  let '(text, href) := m in
  if negb (startsWith "http" href) then inr (Link.mk href text true)
  else
    (try! url := property metadata "url" Metadata.url in
     try! u := new_URL rt (str_or url "") in
     inr (Link.mk href text (includes (URL.hostname u) href)))%js.

Fixpoint links_of (rt : runtime) (metadata : option Metadata.t)
    (ms : list (string * string)) : result (list Link.t) :=
  match ms with
  | [] => inr []
  | m :: ms' =>
      (try! l := link_of rt metadata m in
       try! ls := links_of rt metadata ms' in
       inr (l :: ls))%js
  end.

Definition isSentenceEnd (c : ascii) : bool :=
  isChar "." c || isChar "!" c || isChar "?" c.

(** [markdown.split(/\s+/).filter(word => word.length > 0).length]. *)
Definition countWords (markdown : string) : nat :=
  List.length
    (filter (fun word => (0 <? String.length word)%nat)
       (split isWhitespace markdown)).

(** [markdown.split(/[.!?]+/).length]. *)
Definition countSentences (markdown : string) : nat :=
  List.length (split isSentenceEnd markdown).

(** The Flesch approximation before it is clamped. *)
Definition fleschEase (wordCount sentences : nat) : number :=
  let syllables := mul (of_nat wordCount) (lit 15 1) in
  sub (sub (lit 206835 3)
         (mul (lit 1015 3) (div (of_nat wordCount) (of_nat sentences))))
      (mul (lit 846 1) (div syllables (of_nat wordCount))).

Definition readability (wordCount sentences : nat) : number :=
  Math_max (of_Z 0) (Math_min (of_Z 100) (fleschEase wordCount sentences)).

Definition analyzePageContent (rt : runtime) (markdown : string)
    (metadata : option Metadata.t) : result PageContent.t :=
  let headings := scanHeadings true 0 markdown in
  let images := scan image_at 0 markdown in
  (try! links := links_of rt metadata (scan link_at 0 markdown) in
   let wordCount := countWords markdown in
   let sentences := countSentences markdown in
   let readabilityScore := readability wordCount sentences in
   try! title := property metadata "title" Metadata.title in
   try! description := property metadata "description" Metadata.description in
   inr (PageContent.mk (str_or title "") (str_or description "")
          headings images links wordCount readabilityScore))%js.

(** ** Factor analyzer: [analyzeSEOFactors] *)

(** The three arrays the rules push to. *)
Module Factors.
Record t := mk {
  positiveFactors : list SEOFactor.t;
  negativeFactors : list SEOFactor.t;
  recommendations : list SEOFactor.t
}.
Definition empty : t := mk [] [] [].
End Factors.

Definition push_positive (f : SEOFactor.t) (fs : Factors.t) : Factors.t :=
  Factors.mk (Factors.positiveFactors fs ++ [f]) (Factors.negativeFactors fs)
    (Factors.recommendations fs).
Definition push_negative (f : SEOFactor.t) (fs : Factors.t) : Factors.t :=
  Factors.mk (Factors.positiveFactors fs) (Factors.negativeFactors fs ++ [f])
    (Factors.recommendations fs).
Definition push_recommendation (f : SEOFactor.t) (fs : Factors.t) : Factors.t :=
  Factors.mk (Factors.positiveFactors fs) (Factors.negativeFactors fs)
    (Factors.recommendations fs ++ [f]).

Section Rules.

(** The parameter [metadata] of the source is never read. *)
Variable rt : runtime.
Variable pageContent : PageContent.t.
Variable technicalMetrics : TechnicalMetrics.t.

(** A count or a length in a template literal. *)
Definition show (n : nat) : string := Number_toString rt (of_nat n).

Definition countOf {A} (p : A -> bool) (l : list A) : nat :=
  List.length (filter p l).

(** Title analysis. *)
Definition titleAnalysis (fs : Factors.t) : Factors.t :=
  let title := PageContent.title pageContent in
  let len := String.length title in
  if negb (String.eqb title "") then
    if ((30 <=? len) && (len <=? 60))%nat then
      push_positive
        (SEOFactor.mk "Optimal Title Length"
           ("Title is " ++ show len
            ++ " characters, within the recommended 30-60 range")
           high "Content" (Some (VNumber (of_nat len))) (Some pass)) fs
    else
      push_recommendation
        (SEOFactor.mk "Optimize Title Length"
           "Adjust your page title to be between 30-60 characters for better search visibility"
           high "Content" None None)
        (push_negative
           (SEOFactor.mk "Suboptimal Title Length"
              ("Title is " ++ show len
               ++ " characters. Recommended: 30-60 characters")
              high "Content" (Some (VNumber (of_nat len))) (Some fail)) fs)
  else
    push_negative
      (SEOFactor.mk "Missing Page Title"
         "Page is missing a title tag, which is crucial for SEO"
         high "Content" None (Some fail)) fs.

(** Meta description analysis. *)
Definition metaDescriptionAnalysis (fs : Factors.t) : Factors.t :=
  let metaDescription := PageContent.metaDescription pageContent in
  let len := String.length metaDescription in
  if negb (String.eqb metaDescription "") then
    if ((120 <=? len) && (len <=? 160))%nat then
      push_positive
        (SEOFactor.mk "Good Meta Description"
           ("Meta description is " ++ show len
            ++ " characters, within optimal range")
           medium "Content" (Some (VNumber (of_nat len))) (Some pass)) fs
    else
      push_negative
        (SEOFactor.mk "Suboptimal Meta Description"
           ("Meta description is " ++ show len
            ++ " characters. Recommended: 120-160")
           medium "Content" (Some (VNumber (of_nat len))) (Some warning)) fs
  else
    push_negative
      (SEOFactor.mk "Missing Meta Description"
         "Page lacks a meta description, missing opportunity for search snippet optimization"
         medium "Content" None (Some fail)) fs.

(** Heading structure analysis. *)
Definition headingStructureAnalysis (fs : Factors.t) : Factors.t :=
  let h1Count :=
    countOf (fun h => (Heading.level h =? 1)%nat)
      (PageContent.headings pageContent) in
  if (h1Count =? 1)%nat then
    push_positive
      (SEOFactor.mk "Proper H1 Structure"
         "Page has exactly one H1 tag, following SEO best practices"
         high "Content" None (Some pass)) fs
  else if (h1Count =? 0)%nat then
    push_negative
      (SEOFactor.mk "Missing H1 Tag"
         "Page is missing an H1 tag, which is important for content hierarchy"
         high "Content" None (Some fail)) fs
  else
    push_negative
      (SEOFactor.mk "Multiple H1 Tags"
         ("Page has " ++ show h1Count
          ++ " H1 tags. Best practice is to have exactly one H1 per page")
         medium "Content" (Some (VNumber (of_nat h1Count))) (Some warning)) fs.

(** Image optimization analysis. *)
Definition imageOptimizationAnalysis (fs : Factors.t) : Factors.t :=
  let imagesWithoutAlt :=
    countOf (fun img => negb (Image.hasAlt img))
      (PageContent.images pageContent) in
  let totalImages := List.length (PageContent.images pageContent) in
  if (0 <? totalImages)%nat then
    let altTextPercentage :=
      mul (div (of_Z (Z.of_nat totalImages - Z.of_nat imagesWithoutAlt))
             (of_nat totalImages))
          (of_Z 100) in
    if geb altTextPercentage (of_Z 90) then
      push_positive
        (SEOFactor.mk "Good Image Alt Text Coverage"
           (Number_toFixed1 rt altTextPercentage ++ "% of images have alt text")
           medium "Accessibility"
           (Some (VString (Number_toFixed1 rt altTextPercentage ++ "%")))
           (Some pass)) fs
    else
      push_negative
        (SEOFactor.mk "Missing Image Alt Text"
           (show imagesWithoutAlt ++ " out of " ++ show totalImages
            ++ " images are missing alt text")
           medium "Accessibility"
           (Some (VString (show imagesWithoutAlt ++ "/" ++ show totalImages)))
           (Some fail)) fs
  else fs.

(** Content length analysis. *)
Definition contentLengthAnalysis (fs : Factors.t) : Factors.t :=
  let wordCount := PageContent.wordCount pageContent in
  if (300 <=? wordCount)%nat then
    push_positive
      (SEOFactor.mk "Adequate Content Length"
         ("Page has " ++ show wordCount
          ++ " words, providing substantial content for search engines")
         medium "Content" (Some (VNumber (of_nat wordCount))) (Some pass)) fs
  else
    push_negative
      (SEOFactor.mk "Thin Content"
         ("Page has only " ++ show wordCount
          ++ " words. Consider adding more valuable content")
         medium "Content" (Some (VNumber (of_nat wordCount))) (Some warning)) fs.

(** HTTPS analysis. *)
Definition httpsAnalysis (fs : Factors.t) : Factors.t :=
  if TechnicalMetrics.httpsEnabled technicalMetrics then
    push_positive
      (SEOFactor.mk "HTTPS Enabled"
         "Website uses secure HTTPS protocol, which is a ranking factor"
         high "Security" None (Some pass)) fs
  else
    push_negative
      (SEOFactor.mk "HTTPS Not Enabled"
         "Website is not using HTTPS, which can negatively impact rankings"
         high "Security" None (Some fail)) fs.

(** Performance analysis. *)
Definition performanceAnalysis (fs : Factors.t) : Factors.t :=
  let performance := TechnicalMetrics.performance technicalMetrics in
  if geb performance (of_Z 80) then
    push_positive
      (SEOFactor.mk "Good Performance Score"
         ("Performance score of " ++ Number_toString rt performance
          ++ "/100 indicates fast loading")
         high "Performance" (Some (VNumber performance)) (Some pass)) fs
  else
    push_recommendation
      (SEOFactor.mk "Improve Page Speed"
         "Optimize images, minify CSS/JS, and consider using a CDN to improve loading times"
         high "Performance" None None)
      (push_negative
         (SEOFactor.mk "Poor Performance Score"
            ("Performance score of " ++ Number_toString rt performance
             ++ "/100 needs improvement")
            high "Performance" (Some (VNumber performance)) (Some fail)) fs).

(** The rules in the order of the source. *)
Definition concerns : list (Factors.t -> Factors.t) :=
  [ titleAnalysis; metaDescriptionAnalysis; headingStructureAnalysis;
    imageOptimizationAnalysis; contentLengthAnalysis; httpsAnalysis;
    performanceAnalysis ].

Definition analyzeSEOFactors : Factors.t :=
  performanceAnalysis
    (httpsAnalysis
       (contentLengthAnalysis
          (imageOptimizationAnalysis
             (headingStructureAnalysis
                (metaDescriptionAnalysis
                   (titleAnalysis Factors.empty)))))).

End Rules.

(** ** Structured data and social media *)

(** [metadata.jsonLd?.length > 0]. *)
Definition hasJsonLd (m : Metadata.t) : bool :=
  match Metadata.jsonLd m with
  | Some l => (0 <? List.length l)%nat
  | None => false
  end.

Definition analyzeStructuredData (markdown : string)
    (metadata : option Metadata.t) : result StructuredData.t :=
  (try! hasSchema :=
     (if includes "schema.org" markdown then inr true
      else if includes "application/ld+json" markdown then inr true
      else property metadata "jsonLd" hasJsonLd) in
   inr (StructuredData.mk hasSchema
          (if hasSchema then ["Organization"; "WebPage"] else [])
          (if hasSchema then [] else ["No structured data found"])))%js.

Definition analyzeSocialMedia (metadata : option Metadata.t)
    : result SocialMedia.t :=
  (try! m := property metadata "ogTitle" (fun m => m) in
   let hasOpenGraph :=
     str_truthy (Metadata.ogTitle m) || str_truthy (Metadata.ogDescription m)
     || str_truthy (Metadata.ogImage m) in
   let hasTwitterCards :=
     str_truthy (Metadata.twitterCard m) || str_truthy (Metadata.twitterTitle m) in
   inr (SocialMedia.mk hasOpenGraph hasTwitterCards (Metadata.ogTitle m)
          (Metadata.ogDescription m) (Metadata.ogImage m)))%js.

(** ** Technical metrics and score *)

(** [pageSpeedData.lighthouseResult?.categories?.x?.score]. *)
Definition categoryScore (pageSpeedData : Report.t)
    (x : Report.categories -> option (option number)) : option number :=
  match Report.lighthouseResult pageSpeedData with
  | Some lh =>
      match Report.lh_categories lh with
      | Some c => match x c with Some score => score | None => None end
      | None => None
      end
  | None => None
  end.

(** [pageSpeedData.lighthouseResult?.audits?.[x]?.numericValue]. *)
Definition auditValue (pageSpeedData : Report.t)
    (x : Report.audits -> option (option number)) : option number :=
  match Report.lighthouseResult pageSpeedData with
  | Some lh =>
      match Report.lh_audits lh with
      | Some a => match x a with Some v => v | None => None end
      | None => None
      end
  | None => None
  end.

(** [Math.round((score || d) * 100)]. *)
Definition percent (score : option number) (d : number) : number :=
  Math_round (mul (num_or score d) (of_Z 100)).

Definition present {A} (x : option A) : nat :=
  match x with Some _ => 1%nat | None => 0%nat end.

(** [Object.keys(metadata).length]. *)
Definition keysCount (m : Metadata.t) : nat :=
  (present (Metadata.url m) + present (Metadata.title m)
   + present (Metadata.description m) + present (Metadata.jsonLd m)
   + present (Metadata.ogTitle m) + present (Metadata.ogDescription m)
   + present (Metadata.ogImage m) + present (Metadata.twitterCard m)
   + present (Metadata.twitterTitle m)
   + List.length (Metadata.otherKeys m))%nat.

(** The object literal [technicalMetrics] of [analyzeWebsite]. *)
Definition buildTechnicalMetrics (cleanUrl : string)
    (metadata : option Metadata.t) (pageSpeedData : Report.t)
    (pageContent : PageContent.t) : TechnicalMetrics.t :=
  let images := PageContent.images pageContent in
  TechnicalMetrics.mk
    (percent (categoryScore pageSpeedData Report.cat_performance) (lit 7 1))
    (percent (categoryScore pageSpeedData Report.cat_seo) (lit 8 1))
    (startsWith "https://" cleanUrl)
    (match metadata with Some m => keysCount m | None => 0%nat end)
    (countOf (fun h => (Heading.level h =? 1)%nat)
       (PageContent.headings pageContent) =? 1)%nat
    (Math_round
       (mul (div (of_nat (countOf Image.hasAlt images))
               (of_Z (Z.max (Z.of_nat (List.length images)) 1)))
            (of_Z 100)))
    (CoreWebVitals.mk
       (num_or (auditValue pageSpeedData Report.largest_contentful_paint)
          (of_Z 2500))
       (num_or (auditValue pageSpeedData Report.first_input_delay) (of_Z 100))
       (num_or (auditValue pageSpeedData Report.cumulative_layout_shift)
          (lit 1 1)))
    (percent (categoryScore pageSpeedData Report.cat_seo) (lit 75 2))
    (percent (categoryScore pageSpeedData Report.cat_accessibility) (lit 8 1))
    (percent (categoryScore pageSpeedData Report.cat_best_practices) (lit 85 2))
    (percent (categoryScore pageSpeedData Report.cat_performance) (lit 7 1)).

(** The expression [score] of [analyzeWebsite]; [+] associates to the left. *)
Definition overallScore (technicalMetrics : TechnicalMetrics.t)
    (negativeFactors : list SEOFactor.t) : number :=
  Math_round
    (add
       (add
          (add
             (add (mul (TechnicalMetrics.seoScore technicalMetrics) (lit 3 1))
                  (mul (TechnicalMetrics.performance technicalMetrics) (lit 25 2)))
             (mul (TechnicalMetrics.accessibility technicalMetrics) (lit 2 1)))
          (mul (TechnicalMetrics.bestPractices technicalMetrics) (lit 15 2)))
       (mul (of_Z (Z.max 0 (100 - Z.of_nat (List.length negativeFactors) * 5)))
            (lit 1 1))).

(** ** Collaborators and orchestrator *)

Section Analyzer.

Variable rt : runtime.

Definition console_error (label : string) (error : exn) : M unit :=
  emit (ConsoleError label error).

(** [Math.random()]. *)
Definition random : M number :=
  fun w => (mkWorld (log w) (S (draws w)), inr (Math_random rt (draws w))).

Definition scrapeError : exn :=
  Error "Failed to analyze website. Please check the URL and try again.".

Definition scrapeWebsite (url : string) : M Scrape.t :=
  try_catch
    (emit (ScrapeCall url) ;;;
     r <- lift (blink_data_scrape rt url) ;;
     ret r)%js
    (fun error =>
       console_error "Error scraping website:" error ;;;
       throw scrapeError)%js.

Definition getMockPageSpeedData : M Report.t :=
  (r1 <- random ;; r2 <- random ;; r3 <- random ;; r4 <- random ;;
   r5 <- random ;; r6 <- random ;; r7 <- random ;;
   ret (Report.mk (Some (Report.mkLighthouse
     (Some (Report.mkCategories
        (Some (Some (add (mul r1 (lit 4 1)) (lit 6 1))))
        (Some (Some (add (mul r2 (lit 3 1)) (lit 7 1))))
        (Some (Some (add (mul r3 (lit 2 1)) (lit 8 1))))
        (Some (Some (add (mul r4 (lit 3 1)) (lit 7 1))))))
     (Some (Report.mkAudits
        (Some (Some (add (mul r5 (of_Z 2000)) (of_Z 1000))))
        (Some (Some (add (mul r6 (of_Z 100)) (of_Z 50))))
        (Some (Some (add (mul r7 (lit 1 1)) (lit 5 2))))))))))%js.

Definition pageSpeedRequest (url : string) : Fetch.request :=
  Fetch.mkRequest "https://www.googleapis.com/pagespeedonline/v5/runPagespeed"
    "GET"
    [ ("url", url); ("key", "{{google_pagespeed_api_key}}");
      ("category", "performance,accessibility,best-practices,seo");
      ("strategy", "mobile") ].

(** The value is [response.body] as it is, [undefined] included, or the
    mock report. *)
Definition getPageSpeedInsights (url : string) : M (option Report.t) :=
  try_catch
    (emit (FetchCall (pageSpeedRequest url)) ;;;
     response <- lift (blink_data_fetch rt (pageSpeedRequest url)) ;;
     if Fetch.status response =? 200 then ret (Fetch.body response)
     else (mock <- getMockPageSpeedData ;; ret (Some mock)))%js
    (fun error =>
       console_error "PageSpeed API error:" error ;;;
       mock <- getMockPageSpeedData ;;
       ret (Some mock))%js.

(** [onProgress?.(percent)]; the callback is an observer. *)
Definition progress (onProgress : bool) (percent : Z) : M unit :=
  if onProgress then emit (Progress percent) else ret tt.

Definition analyzeWebsite (url : string) (onProgress : bool)
    : M AuditResult.t :=
  try_catch
    (urlObj <- lift (new_URL rt url) ;;
     let cleanUrl := URL.toString urlObj in
     progress onProgress 10 ;;;
     scraped <- scrapeWebsite cleanUrl ;;
     let markdown := Scrape.markdown scraped in
     let metadata := Scrape.metadata scraped in
     progress onProgress 30 ;;;
     pageSpeedData <- getPageSpeedInsights cleanUrl ;;
     progress onProgress 60 ;;;
     pageContent <- lift (analyzePageContent rt markdown metadata) ;;
     progress onProgress 70 ;;;
     report <- lift (match pageSpeedData with
                     | Some r => inr r
                     | None => inl (undefinedProperty "lighthouseResult")
                     end) ;;
     let technicalMetrics :=
       buildTechnicalMetrics cleanUrl metadata report pageContent in
     progress onProgress 80 ;;;
     let factors :=
       analyzeSEOFactors rt pageContent technicalMetrics in
     structuredData <- lift (analyzeStructuredData markdown metadata) ;;
     socialMedia <- lift (analyzeSocialMedia metadata) ;;
     progress onProgress 90 ;;;
     let score :=
       overallScore technicalMetrics (Factors.negativeFactors factors) in
     progress onProgress 100 ;;;
     ret (AuditResult.mk score cleanUrl
            (Factors.positiveFactors factors)
            (Factors.negativeFactors factors)
            (Factors.recommendations factors)
            technicalMetrics pageContent structuredData socialMedia))%js
    (fun error =>
       console_error "SEO analysis error:" error ;;;
       throw error)%js.

End Analyzer.

(** ** The page: [App] *)

(** [getScoreColor] and [getScoreBackground]. *)
Definition getScoreColor (score : number) : string :=
  if geb score (of_Z 80) then "text-green-600"
  else if geb score (of_Z 60) then "text-yellow-600"
  else "text-red-600".

Definition getScoreBackground (score : number) : string :=
  if geb score (of_Z 80) then "bg-green-50 border-green-200"
  else if geb score (of_Z 60) then "bg-yellow-50 border-yellow-200"
  else "bg-red-50 border-red-200".

(** The type ['lcp' | 'fid' | 'cls']; the [default] branches of the two
    [switch] statements on it are not reached. *)
Inductive Vital := lcp | fid | cls.

Definition getCoreWebVitalStatus (value : number) (type : Vital) : string :=
  match type with
  | lcp =>
      if leb value (of_Z 2500) then "good"
      else if leb value (of_Z 4000) then "needs-improvement" else "poor"
  | fid =>
      if leb value (of_Z 100) then "good"
      else if leb value (of_Z 300) then "needs-improvement" else "poor"
  | cls =>
      if leb value (lit 1 1) then "good"
      else if leb value (lit 25 2) then "needs-improvement" else "poor"
  end.

Definition getStatusColor (status : string) : string :=
  if String.eqb status "good" then "text-green-600"
  else if String.eqb status "needs-improvement" then "text-yellow-600"
  else if String.eqb status "poor" then "text-red-600"
  else "text-gray-600".

(** The state of the component: the five [useState] cells. *)
Module AppState.
Record t := mk {
  url : string;
  isAnalyzing : bool;
  auditResult : option AuditResult.t;
  progress : Z;
  error : option string
}.
End AppState.

(** The events of [w'] that [w] does not have. *)
Definition newEvents (w w' : world) : list event :=
  skipn (List.length (log w)) (log w').

(** The cell [progress] after the callback [setProgress] has seen [evs]. *)
Definition lastProgress (current : Z) (evs : list event) : Z :=
  fold_left (fun p ev => match ev with Progress q => q | _ => p end) evs current.

Definition message (e : exn) : string :=
  match e with Throw _ m => m end.

(** [handleAudit]: the state and the world when the handler has run.
    [instanceofError] is the test [err instanceof Error]. *)
Definition handleAudit (rt : runtime) (instanceofError : exn -> bool)
    (st : AppState.t) (w : world) : AppState.t * world :=
  let url := AppState.url st in
  if String.eqb url "" then (st, w)
  else
    match analyzeWebsite rt url true w with
    | (w', inr result) =>
        (AppState.mk url false (Some result)
           (lastProgress 0 (newEvents w w')) None, w')
    | (w', inl err) =>
        (AppState.mk url false None (lastProgress 0 (newEvents w w'))
           (Some (if instanceofError err then message err
                  else "An error occurred during analysis")), w')
    end.

(** ** The formulas of the specification *)

(** [seoScore*0.30 + performance*0.25 + accessibility*0.20 +
    bestPractices*0.15 + max(0, 100 - n*5)*0.10], the weighted sum of the
    specification, as the rational number that it is. *)
Definition weightedSum (seoScore performance accessibility bestPractices : Z)
    (n : nat) : Q :=
  (inject_Z seoScore * (30 # 100) + inject_Z performance * (25 # 100)
   + inject_Z accessibility * (20 # 100) + inject_Z bestPractices * (15 # 100)
   + inject_Z (Z.max 0 (100 - Z.of_nat n * 5)) * (10 # 100))%Q.

(** [round(x)], the integer nearest to [x], a tie going up as [Math.round]
    has it. *)
Definition round (x : Q) : Z := Qfloor (x + (1 # 2))%Q.

(** The score of the specification: the rounded weighted sum. *)
Definition score_formula (seoScore performance accessibility bestPractices : Z)
    (n : nat) : Z :=
  round (weightedSum seoScore performance accessibility bestPractices n).

(** The weighted sum is halfway between two integers. *)
Definition tie (seoScore performance accessibility bestPractices : Z)
    (n : nat) : Prop :=
  (weightedSum seoScore performance accessibility bestPractices n + (1 # 2)
   == inject_Z (score_formula seoScore performance accessibility bestPractices n))%Q.

(** [round(100 * imagesWithAlt / max(totalImages, 1))]. *)
Definition imageOptimization_formula (imagesWithAlt totalImages : nat) : number :=
  Math_round
    (div (mul (of_Z 100) (of_nat imagesWithAlt))
         (of_Z (Z.max (Z.of_nat totalImages) 1))).

(** [max(0, min(100, x))]. *)
Definition clamp (x : number) : number :=
  Math_max (of_Z 0) (Math_min (of_Z 100) x).

(** What a rule adds to the three arrays. *)
Definition contribution (rule : Factors.t -> Factors.t) : Factors.t :=
  rule Factors.empty.

Definition append (fs gs : Factors.t) : Factors.t :=
  Factors.mk (Factors.positiveFactors fs ++ Factors.positiveFactors gs)
    (Factors.negativeFactors fs ++ Factors.negativeFactors gs)
    (Factors.recommendations fs ++ Factors.recommendations gs).

Definition size (fs : Factors.t) : nat :=
  (List.length (Factors.positiveFactors fs)
   + List.length (Factors.negativeFactors fs)
   + List.length (Factors.recommendations fs))%nat.

(** ** The sums that the score can take, on hardware floats

    The weighted sum of the score has four additions.  The sets below hold
    every value that each partial sum takes on integer sub-scores in
    [0..100], each with the exact sum that it stands for, counted in
    twentieths; they are computed with the primitive binary64 operations,
    which [FloatAxioms] relates to [SpecFloat], and checked to be closed. *)

(** A binary64 value and the exact value, in twentieths, that it rounds. *)
Definition entry : Type := (PrimFloat.float * Z)%type.

Inductive tree := Leaf | Node (l : tree) (v : entry) (r : tree).

Fixpoint elements (t : tree) : list entry :=
  match t with
  | Leaf => []
  | Node l v r => elements l ++ v :: elements r
  end.

(** [u] and [v] are the same binary64 number. *)
Definition agree (u v : PrimFloat.float) : bool :=
  if PrimFloat.ltb PrimFloat.zero u then PrimFloat.eqb u v
  else same (FloatOps.Prim2SF u) (FloatOps.Prim2SF v).

(** The exact value that [t] gives for [u]. *)
Fixpoint lookup (u : PrimFloat.float) (t : tree) : option Z :=
  match t with
  | Leaf => None
  | Node l (v, k) r =>
      if PrimFloat.ltb u v then lookup u l
      else if PrimFloat.ltb v u then lookup u r
      else if agree u v then Some k else None
  end.

Fixpoint merge (l1 : list entry) : list entry -> list entry :=
  fix inner (l2 : list entry) : list entry :=
    match l1, l2 with
    | [], _ => l2
    | _, [] => l1
    | a :: l1', b :: l2' =>
        if PrimFloat.ltb (fst a) (fst b) then a :: merge l1' l2
        else if PrimFloat.ltb (fst b) (fst a) then b :: inner l2'
        else a :: merge l1' l2'
    end.

Fixpoint mergePairs (ls : list (list entry)) : list (list entry) :=
  match ls with
  | a :: b :: ls' => merge a b :: mergePairs ls'
  | _ => ls
  end.

Fixpoint mergeAll (fuel : nat) (ls : list (list entry)) : list entry :=
  match fuel, ls with
  | _, [] => []
  | _, [l] => l
  | O, l :: _ => l
  | S f, _ => mergeAll f (mergePairs ls)
  end.

Fixpoint balanced (fuel : nat) (l : list entry) : tree :=
  match fuel, l with
  | S f, _ :: _ =>
      let n := Nat.div2 (List.length l) in
      match skipn n l with
      | v :: r => Node (balanced f (firstn n l)) v (balanced f r)
      | [] => Leaf
      end
  | _, _ => Leaf
  end.

(** A search tree of the entries of sorted lists. *)
Definition collect (ls : list (list entry)) : tree :=
  balanced 64 (mergeAll 64 ls).

Definition plus (s t : entry) : entry :=
  (PrimFloat.add (fst s) (fst t), snd s + snd t).

Definition sums (S T : list entry) : list (list entry) :=
  map (fun s => map (plus s) T) S.

(** Every [s + t] is in [M], with the sum of the exact values. *)
Definition closed (S T : list entry) (M : tree) : bool :=
  forallb
    (fun s =>
       forallb
         (fun t =>
            match lookup (PrimFloat.add (fst s) (fst t)) M with
            | Some k => k =? snd s + snd t
            | None => false
            end) T) S.

(** The integer sub-scores, and the values of [max(0, 100 - n*5)]. *)
Definition percents : list Z := map Z.of_nat (seq 0 101).
Definition bonuses : list Z := map (fun k => Z.of_nat k * 5) (seq 0 21).

Definition float_of (z : Z) : PrimFloat.float :=
  PrimFloat.of_uint63 (Uint63.of_Z z).

(** [z * (m / 10^k)] on hardware floats. *)
Definition weigh (m k z : Z) : PrimFloat.float :=
  PrimFloat.mul (float_of z) (PrimFloat.div (float_of m) (float_of (10 ^ k))).

(** The terms [z * (m / 10^k)], each with its exact value [z * n / 20]. *)
Definition weighted (m k n : Z) (l : list Z) : list entry :=
  map (fun z => (weigh m k z, n * z)) l.

(** [weigh] computes what the model computes. *)
Definition weighted_ok (m k : Z) (l : list Z) : bool :=
  forallb (fun z => same (FloatOps.Prim2SF (weigh m k z)) (mul (of_Z z) (lit m k))) l.

Definition sums1 : tree :=
  Eval vm_compute in
    collect (sums (weighted 3 1 6 percents) (weighted 25 2 5 percents)).
Definition sums2 : tree :=
  Eval vm_compute in collect (sums (elements sums1) (weighted 2 1 4 percents)).
Definition sums3 : tree :=
  Eval vm_compute in collect (sums (elements sums2) (weighted 15 2 3 percents)).
Definition sums4 : tree :=
  Eval vm_compute in collect (sums (elements sums3) (weighted 1 1 2 bonuses)).

(** The integer that a number is, when it is one. *)
Definition toInteger (x : number) : Z :=
  match x with
  | S754_finite false m e => Z.shiftl (Zpos m) e
  | _ => 0
  end.

(** [x] rounds an exact value of [k] twentieths as [round] does, or to one
    less when the exact value is halfway between two integers. *)
Definition roundsTo (x : number) (k : Z) : bool :=
  let z := (k + 10) / 20 in
  same x (of_Z z) || ((k mod 20 =? 10) && same x (of_Z (z - 1))).

Definition rounded (S : list entry) : bool :=
  forallb (fun s => roundsTo (Math_round (FloatOps.Prim2SF (fst s))) (snd s)) S.

(** ** A platform and inputs for the examples *)

(** The characters of [s] after the first [n]. *)
Fixpoint dropChars (n : nat) (s : string) : string :=
  match n, s with
  | S k, String _ s' => dropChars k s'
  | _, _ => s
  end.

Definition isHostEnd (c : ascii) : bool :=
  isChar "/" c || isChar "?" c || isChar "#" c || isChar ":" c.

(** A parser for the absolute http(s) URLs of the examples, which are
    written as they serialize; it refuses everything else. *)
Definition example_URL_parse (s : string) : option URL.t :=
  let host (n : nat) := takeWhile (fun c => negb (isHostEnd c)) (dropChars n s) in
  if startsWith "https://" s then
    if String.eqb (host 8%nat) "" then None else Some (URL.mk s (host 8%nat))
  else if startsWith "http://" s then
    if String.eqb (host 7%nat) "" then None else Some (URL.mk s (host 7%nat))
  else None.

Fixpoint decimal (fuel : nat) (z : Z) (acc : string) : string :=
  match fuel with
  | O => acc
  | S f =>
      let acc' := String (ascii_of_N (48 + Z.to_N (z mod 10))) acc in
      if z <? 10 then acc' else decimal f (z / 10) acc'
  end.

(** The digits of the integer part of a number that is not negative. *)
Definition example_toString (x : number) : string :=
  match x with
  | S754_nan => "NaN"
  | S754_infinity _ => "Infinity"
  | _ => decimal 400 (toInteger x) ""
  end.

Definition example_toFixed1 (x : number) : string :=
  let tenths := toInteger (Math_round (mul x (of_Z 10))) in
  decimal 400 (tenths / 10) "" ++ "." ++ decimal 1 (tenths mod 10) "".

Definition example_metadata : Metadata.t :=
  Metadata.mk (Some "https://example.com/")
    (Some "An example page about nothing in particular")
    (Some "A description") None None None None None None [].

Definition example_markdown : string :=
  "# Example [home](https://example.com/) and [docs](/docs) ![logo](l.png) text.".

Definition example_report : Report.t :=
  Report.mk (Some (Report.mkLighthouse
    (Some (Report.mkCategories (Some (Some (lit 9 1))) (Some (Some (lit 8 1)))
             (Some (Some (of_Z 1))) (Some (Some (lit 95 2)))))
    None)).

Definition example_runtime : runtime :=
  mkRuntime example_URL_parse example_toString example_toFixed1
    (fun _ => inr (Scrape.mk example_markdown (Some example_metadata)))
    (fun _ => inr (Fetch.mkResponse 200 (Some example_report)))
    (fun _ => lit 5 1).

Definition networkError : exn := Throw "NetworkError" "connection refused".

(** The platform of the examples with a scrape that fails. *)
Definition offline_runtime : runtime :=
  mkRuntime example_URL_parse example_toString example_toFixed1
    (fun _ => inl networkError)
    (fun _ => inl networkError)
    (fun _ => lit 5 1).

Definition start : world := mkWorld [] 0.

Fixpoint repeatString (n : nat) (s : string) : string :=
  match n with
  | O => ""
  | S k => s ++ repeatString k s
  end.

(** Eighty words and no sentence mark. *)
Definition eighty_words : string := repeatString 80 "word ".

Definition page_with_title (title : string) : PageContent.t :=
  PageContent.mk title "" [] [] [] 0 (of_Z 0).

(** 200 images, 29 of them with an alt text. *)
Definition page_with_200_images : PageContent.t :=
  PageContent.mk "" "" []
    (repeat (Image.mk "a.png" "a" true) 29
     ++ repeat (Image.mk "b.png" "" false) 171)
    [] 0 (of_Z 0).

Definition metadata_without_url : Metadata.t :=
  Metadata.mk None (Some "T") None None None None None None None [].

Definition report_with_zero_performance : Report.t :=
  Report.mk (Some (Report.mkLighthouse
    (Some (Report.mkCategories (Some (Some (of_Z 0))) None None None))
    None)).

Definition empty_report : Report.t := Report.mk None.

Definition metrics_of (seoScore performance accessibility bestPractices : Z)
    : TechnicalMetrics.t :=
  TechnicalMetrics.mk (of_Z performance) (of_Z seoScore) true 0 true (of_Z 0)
    (CoreWebVitals.mk (of_Z 2500) (of_Z 100) (lit 1 1))
    (of_Z seoScore) (of_Z accessibility) (of_Z bestPractices) (of_Z performance).

(** ** Predicates of the proofs *)

(** The shape of a rounded result: its sign is the one given, and it is
    never [NaN]. *)
Definition signed (s : bool) (x : number) : Prop :=
  match x with
  | S754_nan => False
  | S754_zero t | S754_infinity t | S754_finite t _ _ => t = s
  end.

(** [x] is the value of one of the hardware floats of [l], which stands
    for [k] twentieths. *)
Definition among (l : list entry) (x : number) (k : Z) : Prop :=
  exists p, In (p, k) l /\ x = FloatOps.Prim2SF p.

(** The href of a match of the link pattern starts with [http]. *)
Definition isAbsolute (m : string * string) : bool := startsWith "http" (snd m).

(** ** Descriptions of runs

    What a run adds to the world and what it returns, as plain functions of
    the platform; the run lemmas ([progress_run], [scrapeWebsite_run],
    [getMockPageSpeedData_run], [getPageSpeedInsights_run],
    [analyzeWebsite_inr]) prove that the code does just this. *)

(** [w] with more events and more random draws. *)
Definition extend (evs : list event) (k : nat) (w : world) : world :=
  mkWorld (log w ++ evs) (draws w + k).

(** The events of [onProgress?.(percent)]. *)
Definition reported (onProgress : bool) (percent : Z) : list event :=
  if onProgress then [Progress percent] else [].

(** The report that [getMockPageSpeedData] builds from the draws [k] to
    [k + 6]. *)
Definition mockReport (rt : runtime) (k : nat) : Report.t :=
  let r (i : nat) := Math_random rt (k + i) in
  Report.mk (Some (Report.mkLighthouse
    (Some (Report.mkCategories
       (Some (Some (add (mul (r 0%nat) (lit 4 1)) (lit 6 1))))
       (Some (Some (add (mul (r 1%nat) (lit 3 1)) (lit 7 1))))
       (Some (Some (add (mul (r 2%nat) (lit 2 1)) (lit 8 1))))
       (Some (Some (add (mul (r 3%nat) (lit 3 1)) (lit 7 1))))))
    (Some (Report.mkAudits
       (Some (Some (add (mul (r 4%nat) (of_Z 2000)) (of_Z 1000))))
       (Some (Some (add (mul (r 5%nat) (of_Z 100)) (of_Z 50))))
       (Some (Some (add (mul (r 6%nat) (lit 1 1)) (lit 5 2)))))))).

(** The errors that [analyzeWebsite] lets out. *)
Definition surfaced (e : exn) : Prop :=
  e = invalidURL \/ e = scrapeError \/ exists p, e = undefinedProperty p.

(** The statuses that each array admits. *)
Definition passes (f : SEOFactor.t) : Prop := SEOFactor.status f = Some pass.
Definition fails (f : SEOFactor.t) : Prop :=
  SEOFactor.status f = Some fail \/ SEOFactor.status f = Some warning.
Definition advises (f : SEOFactor.t) : Prop :=
  SEOFactor.status f = None /\ SEOFactor.value f = None
  /\ SEOFactor.impact f = high.

(** An event that is no progress report above [limit]. *)
Definition atMost (limit : Z) (ev : event) : Prop :=
  match ev with Progress p => p <= limit | _ => True end.

(** What [getPageSpeedInsights] logs after its request, whether it falls
    back on the mock report, and its value when [k] numbers have been drawn. *)
Definition pageSpeedErrors (rt : runtime) (url : string) : list event :=
  match blink_data_fetch rt (pageSpeedRequest url) with
  | inr _ => []
  | inl e => [ConsoleError "PageSpeed API error:" e]
  end.

Definition mocked (rt : runtime) (url : string) : bool :=
  match blink_data_fetch rt (pageSpeedRequest url) with
  | inr response => negb (Fetch.status response =? 200)
  | inl _ => true
  end.

Definition pageSpeedValue (rt : runtime) (url : string) (k : nat)
    : option Report.t :=
  match blink_data_fetch rt (pageSpeedRequest url) with
  | inr response =>
      if Fetch.status response =? 200 then Fetch.body response
      else Some (mockReport rt k)
  | inl _ => Some (mockReport rt k)
  end.

Definition drawn (rt : runtime) (url : string) : nat :=
  if mocked rt url then 7%nat else 0%nat.

(** The events of a run of [analyzeWebsite] that returns. *)
Definition eventsOfRun (rt : runtime) (onProgress : bool) (url : string)
    : list event :=
  reported onProgress 10 ++ [ScrapeCall url] ++ reported onProgress 30
  ++ [FetchCall (pageSpeedRequest url)] ++ pageSpeedErrors rt url
  ++ reported onProgress 60 ++ reported onProgress 70
  ++ reported onProgress 80 ++ reported onProgress 90
  ++ reported onProgress 100.

(** A report with the four category scores and the three audit values. *)
Definition complete (report : Report.t) : Prop :=
  categoryScore report Report.cat_performance <> None
  /\ categoryScore report Report.cat_accessibility <> None
  /\ categoryScore report Report.cat_best_practices <> None
  /\ categoryScore report Report.cat_seo <> None
  /\ auditValue report Report.largest_contentful_paint <> None
  /\ auditValue report Report.first_input_delay <> None
  /\ auditValue report Report.cumulative_layout_shift <> None.

(** The result of [analyzeWebsite] from what its steps return. *)
Definition auditOf (rt : runtime) (cleanUrl : string) (scraped : Scrape.t)
    (report : Report.t) (pageContent : PageContent.t)
    (structuredData : StructuredData.t) (socialMedia : SocialMedia.t)
    : AuditResult.t :=
  let technicalMetrics :=
    buildTechnicalMetrics cleanUrl (Scrape.metadata scraped) report
      pageContent in
  let factors := analyzeSEOFactors rt pageContent technicalMetrics in
  AuditResult.mk
    (overallScore technicalMetrics (Factors.negativeFactors factors))
    cleanUrl (Factors.positiveFactors factors)
    (Factors.negativeFactors factors) (Factors.recommendations factors)
    technicalMetrics pageContent structuredData socialMedia.

(** The three arrays hold what their names say. *)
Definition sorted (fs : Factors.t) : Prop :=
  Forall passes (Factors.positiveFactors fs)
  /\ Forall fails (Factors.negativeFactors fs)
  /\ Forall advises (Factors.recommendations fs).

(** A factor with the given title is in the array. *)
Definition filed (title : string) (fs : list SEOFactor.t) : bool :=
  existsb (fun f => String.eqb (SEOFactor.title f) title) fs.


(** ** Binary64 facts *)

Section Binary64.

Local Abbreviation digits := Zdigits2.
Local Abbreviation round_aux := (binary_round_aux prec emax).

Lemma digits_nonneg m : 0 <= digits m.
Proof. destruct m; simpl; lia. Qed.

Lemma digits2_succ p :
  (Zpos (digits2_pos (Pos.succ p)) <= Zpos (digits2_pos p) + 1).
Proof. induction p; simpl; lia. Qed.

Lemma digits_incr m : 0 <= m -> digits (m + 1) <= digits m + 1.
Proof.
  destruct m as [|p|p]; simpl; try lia.
  intros _. rewrite Pos.add_1_r. apply digits2_succ.
Qed.

Lemma digits_shift p d :
  Zpos (digits2_pos (Pos.iter xO p d)) = Zpos (digits2_pos p) + Zpos d.
Proof.
  induction d using Pos.peano_ind.
  - simpl. lia.
  - rewrite Pos.iter_succ. simpl. lia.
Qed.

Lemma pow_digits_le p : 2 ^ (Zpos (digits2_pos p) - 1) <= Zpos p.
Proof.
  induction p; simpl digits2_pos.
  - rewrite Pos2Z.inj_succ, <- Z.add_1_r, Z.add_simpl_r.
    replace (Zpos (digits2_pos p)) with (Z.succ (Zpos (digits2_pos p) - 1)) by lia.
    rewrite Z.pow_succ_r by lia. lia.
  - rewrite Pos2Z.inj_succ, <- Z.add_1_r, Z.add_simpl_r.
    replace (Zpos (digits2_pos p)) with (Z.succ (Zpos (digits2_pos p) - 1)) by lia.
    rewrite Z.pow_succ_r by lia. lia.
  - simpl. lia.
Qed.

Lemma digits_lt_pow p : Zpos p < 2 ^ Zpos (digits2_pos p).
Proof.
  induction p; simpl digits2_pos.
  - rewrite Pos2Z.inj_succ, Z.pow_succ_r by lia. lia.
  - rewrite Pos2Z.inj_succ, Z.pow_succ_r by lia. lia.
  - simpl. lia.
Qed.

Lemma digits_mono p q :
  (p <= q)%positive -> Zpos (digits2_pos p) <= Zpos (digits2_pos q).
Proof.
  intros Hpq.
  pose proof (pow_digits_le p) as Hp. pose proof (digits_lt_pow q) as Hq.
  assert (H : 2 ^ (Zpos (digits2_pos p) - 1) < 2 ^ Zpos (digits2_pos q)) by lia.
  apply Z.pow_lt_mono_r_iff in H; lia.
Qed.

Lemma digits_bound p k : 0 <= k -> Zpos p < 2 ^ k -> Zpos (digits2_pos p) <= k.
Proof.
  intros Hk Hp. pose proof (pow_digits_le p) as Hd.
  assert (H : 2 ^ (Zpos (digits2_pos p) - 1) < 2 ^ k) by lia.
  apply Z.pow_lt_mono_r_iff in H; lia.
Qed.

Lemma shr_1_spec mrs :
  0 <= shr_m mrs ->
  0 <= shr_m (shr_1 mrs) /\
  digits (shr_m (shr_1 mrs)) <= Z.max 0 (digits (shr_m mrs) - 1).
Proof.
  destruct mrs as [m r s]. unfold shr_1.
  destruct m as [|[p|p|]|p]; cbn [shr_m Zdigits2 digits2_pos]; lia.
Qed.

Lemma iter_shr_1_spec k : forall mrs,
  0 <= shr_m mrs ->
  0 <= shr_m (iter_pos shr_1 k mrs) /\
  digits (shr_m (iter_pos shr_1 k mrs)) <= Z.max 0 (digits (shr_m mrs) - Zpos k).
Proof.
  induction k as [k IH|k IH|]; intros mrs Hm; simpl iter_pos.
  - destruct (shr_1_spec mrs Hm) as [H1 D1].
    destruct (IH _ H1) as [H2 D2]. destruct (IH _ H2) as [H3 D3].
    split; [exact H3|]. lia.
  - destruct (IH _ Hm) as [H2 D2]. destruct (IH _ H2) as [H3 D3].
    split; [exact H3|]. lia.
  - destruct (shr_1_spec mrs Hm) as [H1 D1]. split; [exact H1|]. lia.
Qed.

Lemma shr_record_of_loc_m m l : shr_m (shr_record_of_loc m l) = m.
Proof. destruct l as [|[]]; reflexivity. Qed.

(** A right shift to the exponent [fexp (digits m + e)] keeps the mantissa
    non-negative, and [digits + exponent] does not grow past what it was or
    past the new exponent. *)
Lemma shr_fexp_spec m e l :
  0 <= m ->
  let r := shr_fexp prec emax m e l in
  0 <= shr_m (fst r) /\
  snd r = Z.max e (fexp prec emax (digits m + e)) /\
  digits (shr_m (fst r)) + snd r <= Z.max (snd r) (digits m + e).
Proof.
  intros Hm. unfold shr_fexp, shr.
  destruct (fexp prec emax (digits m + e) - e) as [|k|k] eqn:Hn; simpl;
    rewrite ?shr_record_of_loc_m.
  - pose proof (digits_nonneg m). repeat split; lia.
  - destruct (iter_shr_1_spec k (shr_record_of_loc m l)) as [H1 D1].
    { now rewrite shr_record_of_loc_m. }
    rewrite shr_record_of_loc_m in D1. repeat split; lia.
  - pose proof (digits_nonneg m). repeat split; lia.
Qed.

Lemma round_nearest_even_spec m l :
  0 <= m ->
  0 <= round_nearest_even m l /\
  digits (round_nearest_even m l) <= digits m + 1.
Proof.
  intros Hm. pose proof (digits_incr m Hm).
  destruct l as [|[]]; simpl; try (split; lia).
  destruct (Z.even m); split; lia.
Qed.

Lemma round_aux_signed s m e l : 0 <= m -> signed s (round_aux s m e l).
Proof.
  intros Hm. unfold binary_round_aux.
  destruct (shr_fexp prec emax m e l) as [mrs' e'] eqn:E1.
  pose proof (shr_fexp_spec m e l Hm) as S1. rewrite E1 in S1. simpl in S1.
  destruct S1 as [H1 _].
  destruct (round_nearest_even_spec (shr_m mrs') (loc_of_shr_record mrs') H1)
    as [H2 _].
  destruct (shr_fexp prec emax _ e' loc_Exact) as [mrs'' e''] eqn:E2.
  pose proof (shr_fexp_spec _ e' loc_Exact H2) as S2. rewrite E2 in S2.
  simpl in S2. destruct S2 as [H3 _].
  destruct (shr_m mrs'') as [|p|p]; try lia; [reflexivity|].
  destruct (e'' <=? emax - prec); reflexivity.
Qed.

(** A mantissa aligned at or below its canonical exponent, of magnitude
    below [2^1023], does not round to an infinity. *)
Lemma round_aux_finite s m e l :
  0 <= m -> e <= fexp prec emax (digits m + e) -> digits m + e <= 1023 ->
  forall t, round_aux s m e l <> S754_infinity t.
Proof.
  intros Hm He Hd t. unfold binary_round_aux.
  destruct (shr_fexp prec emax m e l) as [mrs' e'] eqn:E1.
  pose proof (shr_fexp_spec m e l Hm) as S1. rewrite E1 in S1. simpl in S1.
  destruct S1 as (H1 & X1 & D1).
  destruct (round_nearest_even_spec (shr_m mrs') (loc_of_shr_record mrs') H1)
    as [H2 D2].
  destruct (shr_fexp prec emax _ e' loc_Exact) as [mrs'' e''] eqn:E2.
  pose proof (shr_fexp_spec _ e' loc_Exact H2) as S2. rewrite E2 in S2.
  simpl in S2. destruct S2 as (H3 & X2 & _).
  assert (Hle : e'' <= emax - prec).
  { unfold fexp, emin, prec, emax in *. lia. }
  destruct (shr_m mrs'') as [|p|p]; try discriminate.
  apply Z.leb_le in Hle. rewrite Hle. discriminate.
Qed.


Lemma shl_align_spec p e e' :
  snd (shl_align p e e') = Z.min e e' /\
  Zpos (digits2_pos (fst (shl_align p e e'))) + snd (shl_align p e e')
  = Zpos (digits2_pos p) + e.
Proof.
  unfold shl_align. destruct (e' - e) as [|d|d] eqn:Hd; cbn [fst snd].
  - lia.
  - lia.
  - rewrite digits_shift. lia.
Qed.

Lemma binary_round_signed s p e : signed s (binary_round prec emax s p e).
Proof.
  unfold binary_round. destruct (shl_align _ _ _) as [mz ez].
  apply round_aux_signed. lia.
Qed.

Lemma binary_round_finite s p e :
  Zpos (digits2_pos p) + e <= 1023 ->
  forall t, binary_round prec emax s p e <> S754_infinity t.
Proof.
  intros Hd t. unfold binary_round.
  pose proof (shl_align_spec p e (fexp prec emax (Zpos (digits2_pos p) + e)))
    as [He Hm].
  destruct (shl_align _ _ _) as [mz ez]. cbn [fst snd] in He, Hm.
  apply round_aux_finite; cbn [Zdigits2]; try lia.
  rewrite Hm. lia.
Qed.

Lemma binary_normalize_not_nan z e sz :
  binary_normalize prec emax z e sz <> S754_nan.
Proof.
  destruct z as [|p|p]; cbn [binary_normalize]; [discriminate| |].
  - pose proof (binary_round_signed false p e) as H.
    destruct (binary_round _ _ _ _ _); [discriminate..|contradiction|discriminate].
  - pose proof (binary_round_signed true p e) as H.
    destruct (binary_round _ _ _ _ _); [discriminate..|contradiction|discriminate].
Qed.

(** A canonical mantissa is left as it is. *)
Lemma round_aux_exact s m e :
  fexp prec emax (Zpos (digits2_pos m) + e) = e -> e <= emax - prec ->
  round_aux s (Zpos m) e loc_Exact = S754_finite s m e.
Proof.
  intros Hc He. unfold binary_round_aux, shr_fexp.
  cbn [Zdigits2]. rewrite Hc, Z.sub_diag.
  cbn [shr shr_record_of_loc shr_m loc_of_shr_record round_nearest_even Zdigits2].
  rewrite Hc, Z.sub_diag. cbn [shr shr_record_of_loc shr_m].
  apply Z.leb_le in He. now rewrite He.
Qed.

(** A positive integer below [2^53] is a binary64 number. *)
Lemma of_Z_finite z :
  0 < z < 2 ^ 53 -> exists m e, of_Z z = S754_finite false m e.
Proof.
  intros [Hz Hlt]. destruct z as [|p|p]; try lia.
  pose proof (digits_bound p 53 ltac:(lia) Hlt) as Hd.
  unfold of_Z. cbn [binary_normalize]. unfold binary_round.
  pose proof (shl_align_spec p 0 (fexp prec emax (Zpos (digits2_pos p) + 0)))
    as [He Hm].
  destruct (shl_align _ _ _) as [mz ez]. cbn [fst snd] in He, Hm.
  exists mz, ez. apply round_aux_exact.
  - rewrite Hm. unfold fexp, emin, prec, emax in *. lia.
  - unfold fexp, emin, prec, emax in *. lia.
Qed.

Lemma of_nat_finite n :
  (0 < n)%nat -> Z.of_nat n < 2 ^ 53 ->
  exists m e, of_nat n = S754_finite false m e.
Proof. intros Hn Hlt. apply of_Z_finite. lia. Qed.

Lemma mul_finite_l m e y :
  signed false y -> signed false (mul (S754_finite false m e) y).
Proof.
  destruct y as [t|t| |t my ey]; cbn; intros H; subst; try reflexivity;
    try contradiction.
  apply round_aux_signed. lia.
Qed.

Lemma div_core_nonneg mx ex my ey :
  0 <= fst (fst (SFdiv_core_binary prec emax (Zpos mx) ex (Zpos my) ey)).
Proof.
  unfold SFdiv_core_binary.
  set (s := _ - _ - _).
  set (m' := match s with Z0 => _ | Zpos _ => _ | Zneg _ => _ end).
  assert (Hm : 0 <= m').
  { subst m'. destruct s; try lia. apply Z.shiftl_nonneg. lia. }
  pose proof (Z.div_pos m' (Zpos my) Hm ltac:(lia)) as Hq.
  unfold Z.div in Hq. destruct (Z.div_eucl m' (Zpos my)) as [q r].
  exact Hq.
Qed.

Lemma div_finite_r x m e :
  signed false x -> signed false (div x (S754_finite false m e)).
Proof.
  destruct x as [t|t| |t mx ex]; cbn; intros H; subst; try reflexivity;
    try contradiction.
  pose proof (div_core_nonneg mx ex m e) as Hq.
  destruct (SFdiv_core_binary _ _ _ _ _ _) as [[mz ez] lz]. cbn in Hq.
  now apply round_aux_signed.
Qed.

(** [a - t] for a finite [a > 0] below [2^1023] and [t >= 0]: neither [NaN]
    nor [+Infinity]. *)
Lemma sub_finite_l m e t :
  Zpos (digits2_pos m) + e <= 1023 -> signed false t ->
  sub (S754_finite false m e) t <> S754_nan /\
  sub (S754_finite false m e) t <> S754_infinity false.
Proof.
  intros Hd Ht. destruct t as [s|s| |s mt et]; cbn in Ht; subst;
    try contradiction; try (cbn; split; discriminate).
  unfold sub, SFsub. cbn [cond_Zopp].
  split; [apply binary_normalize_not_nan|].
  set (ez := Z.min e et).
  pose proof (shl_align_spec m e ez) as [He Hm].
  set (a := fst (shl_align m e ez)) in *.
  destruct (Zpos a - Zpos (fst (shl_align mt et ez))) as [|q|q] eqn:Hq;
    cbn [binary_normalize]; [discriminate| |].
  - apply binary_round_finite.
    assert (Hqa : (q <= a)%positive) by lia.
    pose proof (digits_mono q a Hqa). lia.
  - pose proof (binary_round_signed true q ez) as H.
    intros E. rewrite E in H. discriminate H.
Qed.

Lemma sub_not_nan y t :
  y <> S754_nan -> y <> S754_infinity false -> signed false t ->
  sub y t <> S754_nan.
Proof.
  intros Hn Hi Ht.
  destruct t as [s|s| |s mt et]; cbn in Ht; subst; try contradiction;
    destruct y as [[]|[]| |sy my ey]; cbn; try discriminate; try congruence.
  apply binary_normalize_not_nan.
Qed.

Lemma SFcompare_antisym a b c :
  SFcompare a b = Some c -> SFcompare b a = Some (CompOpp c).
Proof.
  destruct a as [s|s| |s m e], b as [t|t| |t n f]; cbn; intros H;
    try discriminate; injection H as <-;
    try (destruct s; reflexivity); try (destruct t; reflexivity);
    try (destruct s, t; reflexivity).
  pose proof (Pos.compare_cont_antisym m n Eq) as P. cbn in P.
  destruct s, t; try reflexivity;
    rewrite (Z.compare_antisym e f); destruct (e ?= f); cbn; try reflexivity.
  - now rewrite <- P, CompOpp_involutive.
  - now rewrite <- P.
Qed.

Lemma SFcompare_none a b :
  SFcompare a b = None -> a = S754_nan \/ b = S754_nan.
Proof.
  destruct a, b; cbn; intros H; try discriminate; auto.
Qed.

(** Clamping a number that is not [NaN] to [0..100]. *)
Lemma clamp_range x :
  x <> S754_nan ->
  leb (of_Z 0) (Math_max (of_Z 0) (Math_min (of_Z 100) x)) = true /\
  leb (Math_max (of_Z 0) (Math_min (of_Z 100) x)) (of_Z 100) = true.
Proof.
  intros Hx.
  change (of_Z 0) with (S754_zero false).
  replace (of_Z 100) with (S754_finite false 7036874417766400 (-46))
    by (vm_compute; reflexivity).
  set (c := S754_finite false 7036874417766400 (-46)).
  unfold Math_min.
  destruct (SFcompare c x) as [[| |]|] eqn:C.
  - split; reflexivity.
  - split; reflexivity.
  - unfold Math_max, leb, SFleb.
    destruct (SFcompare (S754_zero false) x) as [[| |]|] eqn:C0.
    + split; reflexivity.
    + rewrite C0, (SFcompare_antisym _ _ _ C). split; reflexivity.
    + split; reflexivity.
    + apply SFcompare_none in C0. destruct C0; [discriminate|contradiction].
  - apply SFcompare_none in C. destruct C; [discriminate|contradiction].
Qed.

(** The Flesch approximation of a text with at least one word is a number. *)
Lemma fleschEase_not_nan w s :
  (0 < w)%nat -> (0 < s)%nat -> Z.of_nat w < 2 ^ 53 -> Z.of_nat s < 2 ^ 53 ->
  fleschEase w s <> S754_nan.
Proof.
  intros Hw Hs Bw Bs. unfold fleschEase.
  destruct (of_nat_finite w Hw Bw) as (mw & ew & ->).
  destruct (of_nat_finite s Hs Bs) as (ms & es & ->).
  replace (lit 206835 3) with (S754_finite false 7277359600993567 (-45))
    by (vm_compute; reflexivity).
  replace (lit 1015 3) with (S754_finite false 4571153621781053 (-52))
    by (vm_compute; reflexivity).
  replace (lit 846 1) with (S754_finite false 5953195757430374 (-46))
    by (vm_compute; reflexivity).
  replace (lit 15 1) with (S754_finite false 6755399441055744 (-52))
    by (vm_compute; reflexivity).
  assert (Q1 : signed false (div (S754_finite false mw ew) (S754_finite false ms es)))
    by (apply div_finite_r; reflexivity).
  pose proof (mul_finite_l 4571153621781053 (-52) _ Q1) as T1.
  destruct (sub_finite_l 7277359600993567 (-45) _ ltac:(cbn; lia) T1) as [Y1 Y2].
  assert (S1 : signed false (mul (S754_finite false mw ew)
                               (S754_finite false 6755399441055744 (-52))))
    by (apply mul_finite_l; reflexivity).
  pose proof (div_finite_r _ mw ew S1) as Q2.
  pose proof (mul_finite_l 5953195757430374 (-46) _ Q2) as T2.
  now apply sub_not_nan.
Qed.

End Binary64.

(** ** The score takes its values in [0..100] *)

Lemma same_eq a b : same a b = true -> a = b.
Proof.
  destruct a as [s|s| |s m e], b as [t|t| |t n f]; cbn; try discriminate;
    try reflexivity.
  - intros H. apply Bool.eqb_prop in H. now subst.
  - intros H. apply Bool.eqb_prop in H. now subst.
  - intros H. apply andb_prop in H as [H He]. apply andb_prop in H as [Hs Hm].
    apply Bool.eqb_prop in Hs. apply Pos.eqb_eq in Hm. apply Z.eqb_eq in He.
    now subst.
Qed.

Lemma SFeqb_eq x y :
  SFeqb x y = true ->
  match x with S754_finite _ _ _ | S754_infinity _ => True | _ => False end ->
  x = y.
Proof.
  unfold SFeqb.
  destruct x as [s|s| |s m e], y as [t|t| |t n f]; cbn; try contradiction;
    intros H _; try discriminate;
    try (destruct s; discriminate); try (destruct t; discriminate).
  - destruct s, t; try discriminate; reflexivity.
  - destruct s, t; try discriminate;
      destruct (e ?= f) eqn:He; try discriminate;
      apply Z.compare_eq in He; subst f;
      destruct (Pos.compare_cont Eq m n) eqn:Hm; try discriminate;
      apply Pos.compare_eq in Hm; now subst.
Qed.

Lemma agree_sound u v :
  agree u v = true -> FloatOps.Prim2SF u = FloatOps.Prim2SF v.
Proof.
  unfold agree. destruct (PrimFloat.ltb PrimFloat.zero u) eqn:L.
  - intros E. rewrite FloatAxioms.eqb_spec in E.
    rewrite FloatAxioms.ltb_spec in L.
    change (FloatOps.Prim2SF PrimFloat.zero) with (S754_zero false) in L.
    apply SFeqb_eq; [exact E|].
    destruct (FloatOps.Prim2SF u) as [s|s| |s m e]; cbn in L;
      try discriminate; exact I.
  - apply same_eq.
Qed.

Lemma lookup_sound u t k :
  lookup u t = Some k ->
  exists v, In (v, k) (elements t) /\ FloatOps.Prim2SF u = FloatOps.Prim2SF v.
Proof.
  induction t as [|l IHl [v j] r IHr]; cbn [lookup elements]; [discriminate|].
  destruct (PrimFloat.ltb u v).
  - intros H. destruct (IHl H) as (w & Hw & E). exists w. split; [|exact E].
    apply in_or_app. now left.
  - destruct (PrimFloat.ltb v u).
    + intros H. destruct (IHr H) as (w & Hw & E). exists w. split; [|exact E].
      apply in_or_app. right. now right.
    + destruct (agree u v) eqn:A; [|discriminate].
      intros H. inversion H; subst. exists v. split; [|now apply agree_sound].
      apply in_or_app. right. now left.
Qed.

Lemma closed_sound S T M x y k j :
  closed S T M = true -> among S x k -> among T y j ->
  among (elements M) (add x y) (k + j).
Proof.
  intros HC (p & Hp & ->) (q & Hq & ->).
  unfold closed in HC. rewrite forallb_forall in HC.
  specialize (HC _ Hp). rewrite forallb_forall in HC. specialize (HC _ Hq).
  cbn [fst snd] in HC.
  destruct (lookup (PrimFloat.add p q) M) as [i|] eqn:L; [|discriminate].
  apply Z.eqb_eq in HC. subst i.
  destruct (lookup_sound _ _ _ L) as (v & Hv & E).
  exists v. split; [exact Hv|]. rewrite <- E.
  symmetry. apply FloatAxioms.add_spec.
Qed.

Lemma weighted_sound m k n l z :
  weighted_ok m k l = true -> In z l ->
  among (weighted m k n l) (mul (of_Z z) (lit m k)) (n * z).
Proof.
  intros HW Hz. unfold weighted_ok in HW. rewrite forallb_forall in HW.
  exists (weigh m k z). split.
  - unfold weighted. now apply (in_map (fun z => (weigh m k z, n * z))).
  - symmetry. apply same_eq. now apply HW.
Qed.

Lemma rounded_sound S x k :
  rounded S = true -> among S x k ->
  Math_round x = of_Z ((k + 10) / 20)
  \/ (k mod 20 = 10 /\ Math_round x = of_Z ((k + 10) / 20 - 1)).
Proof.
  intros HR (p & Hp & ->). unfold rounded in HR. rewrite forallb_forall in HR.
  specialize (HR _ Hp). cbn [fst snd] in HR. unfold roundsTo in HR.
  apply orb_prop in HR as [H|H].
  - left. now apply same_eq.
  - right. apply andb_prop in H as [Hk H]. apply Z.eqb_eq in Hk.
    split; [exact Hk | now apply same_eq].
Qed.

Lemma percents_spec z : 0 <= z <= 100 -> In z percents.
Proof.
  intros Hz. unfold percents. rewrite <- (Z2Nat.id z) by lia.
  apply in_map, in_seq. lia.
Qed.

Lemma bonuses_spec n : In (Z.max 0 (100 - Z.of_nat n * 5)) bonuses.
Proof.
  unfold bonuses.
  replace (Z.max 0 (100 - Z.of_nat n * 5))
    with (Z.of_nat (20 - Nat.min n 20) * 5) by lia.
  apply (in_map (fun k => Z.of_nat k * 5)), in_seq. lia.
Qed.

Lemma weights_ok :
  weighted_ok 3 1 percents = true /\ weighted_ok 25 2 percents = true /\
  weighted_ok 2 1 percents = true /\ weighted_ok 15 2 percents = true /\
  weighted_ok 1 1 bonuses = true.
Proof. vm_compute. repeat split. Qed.

Lemma closed1 :
  closed (weighted 3 1 6 percents) (weighted 25 2 5 percents) sums1 = true.
Proof. vm_compute. reflexivity. Qed.

Lemma closed2 : closed (elements sums1) (weighted 2 1 4 percents) sums2 = true.
Proof. vm_compute. reflexivity. Qed.

Lemma closed3 : closed (elements sums2) (weighted 15 2 3 percents) sums3 = true.
Proof. vm_compute. reflexivity. Qed.

Lemma closed4 : closed (elements sums3) (weighted 1 1 2 bonuses) sums4 = true.
Proof. vm_compute. reflexivity. Qed.

Lemma rounded4 : rounded (elements sums4) = true.
Proof. vm_compute. reflexivity. Qed.

(** The binary64 sum of the weighted integer sub-scores rounds as the exact
    sum does, or to one less when the exact sum is halfway between two
    integers; the exact sum is counted in twentieths. *)
Lemma weighted_sum_rounds a b c d n :
  0 <= a <= 100 -> 0 <= b <= 100 -> 0 <= c <= 100 -> 0 <= d <= 100 ->
  let k := 6 * a + 5 * b + 4 * c + 3 * d
           + 2 * Z.max 0 (100 - Z.of_nat n * 5) in
  let x :=
    Math_round
      (add (add (add (add (mul (of_Z a) (lit 3 1)) (mul (of_Z b) (lit 25 2)))
                     (mul (of_Z c) (lit 2 1)))
                (mul (of_Z d) (lit 15 2)))
           (mul (of_Z (Z.max 0 (100 - Z.of_nat n * 5))) (lit 1 1))) in
  x = of_Z ((k + 10) / 20)
  \/ (k mod 20 = 10 /\ x = of_Z ((k + 10) / 20 - 1)).
Proof.
  intros Ha Hb Hc Hd. cbv zeta.
  destruct weights_ok as (W1 & W2 & W3 & W4 & W5).
  apply (rounded_sound _ _ _ rounded4).
  apply (closed_sound _ _ _ _ _ _ _ closed4);
    [|apply (weighted_sound _ _ _ _ _ W5), bonuses_spec].
  apply (closed_sound _ _ _ _ _ _ _ closed3);
    [|apply (weighted_sound _ _ _ _ _ W4), percents_spec, Hd].
  apply (closed_sound _ _ _ _ _ _ _ closed2);
    [|apply (weighted_sound _ _ _ _ _ W3), percents_spec, Hc].
  apply (closed_sound _ _ _ _ _ _ _ closed1);
    [apply (weighted_sound _ _ _ _ _ W1), percents_spec, Ha
    |apply (weighted_sound _ _ _ _ _ W2), percents_spec, Hb].
Qed.

(** The formula of the specification in twentieths. *)
Lemma score_formula_twentieths a b c d n :
  let k := 6 * a + 5 * b + 4 * c + 3 * d
           + 2 * Z.max 0 (100 - Z.of_nat n * 5) in
  score_formula a b c d n = (k + 10) / 20
  /\ (k mod 20 = 10 -> tie a b c d n).
Proof.
  cbv zeta. set (e := Z.max 0 (100 - Z.of_nat n * 5)).
  set (k := 6 * a + 5 * b + 4 * c + 3 * d + 2 * e).
  assert (E : (weightedSum a b c d n + (1 # 2) == (k + 10) # 20)%Q).
  { unfold weightedSum. fold e. unfold Qeq, Qplus, Qmult, inject_Z.
    cbn [Qnum Qden]. rewrite ?Pos2Z.inj_mul. subst k. ring. }
  assert (F : score_formula a b c d n = (k + 10) / 20).
  { unfold score_formula, round. rewrite E. reflexivity. }
  split; [exact F|].
  intros T. unfold tie. rewrite F, E. unfold Qeq, inject_Z. cbn [Qnum Qden].
  pose proof (Z.div_mod (k + 10) 20 ltac:(lia)) as D.
  replace ((k + 10) mod 20) with 0 in D; [lia|].
  symmetry. rewrite <- Zplus_mod_idemp_l, T. reflexivity.
Qed.

(** ** The monad and the orchestrator *)

Lemma bind_inr {A B} (m : M A) (k : A -> M B) w w' b :
  bind m k w = (w', inr b) ->
  exists a w1, m w = (w1, inr a) /\ k a w1 = (w', inr b).
Proof.
  unfold bind. destruct (m w) as [w1 [e|a]]; intros H; [discriminate|].
  now exists a, w1.
Qed.

Ltac inv_bind H :=
  let a := fresh "a" in
  let w := fresh "w" in
  let H1 := fresh "Step" in
  apply bind_inr in H as (a & w & H1 & H).

(** A run that returns has computed its score from the metrics and the
    negative factors that it returns. *)
Lemma analyzeWebsite_score rt url onProgress w w' r :
  analyzeWebsite rt url onProgress w = (w', inr r) ->
  AuditResult.score r
  = overallScore (AuditResult.technicalMetrics r) (AuditResult.negativeFactors r).
Proof.
  unfold analyzeWebsite, try_catch.
  match goal with |- context [match ?body w with _ => _ end] =>
    destruct (body w) as [w1 [e|a]] eqn:B end.
  - unfold bind, console_error, emit, throw. discriminate.
  - intros H. inversion H; subst.
    do 14 inv_bind B.
    unfold ret in B. inversion B; subst. reflexivity.
Qed.

(** The audit of the example page runs to its end. *)
Example audit_example :
  exists r,
    snd (analyzeWebsite example_runtime "https://example.com/" true start) = inr r
    /\ AuditResult.score r = of_Z 91
    /\ List.length (AuditResult.negativeFactors r) = 2%nat.
Proof. eexists. vm_compute. repeat split. Qed.

(** ** C5 *)

(** C5. A URL that the parser refuses makes [analyzeWebsite] fail with the
    parser's [TypeError] at once: the only event of the run is the
    [console.error] of the [catch] block, so the scrape collaborator is not
    called and no progress is reported. *)
Theorem C5_invalid_url_fails_before_io rt url onProgress w :
  URL_parse rt url = None ->
  analyzeWebsite rt url onProgress w
  = (mkWorld (log w ++ [ConsoleError "SEO analysis error:" invalidURL]) (draws w),
     inl invalidURL).
Proof.
  intros H. unfold analyzeWebsite, try_catch, bind, lift, new_URL.
  rewrite H. reflexivity.
Qed.

Lemma C5_invalid_url_witness :
  analyzeWebsite example_runtime "not a url" true start
  = (mkWorld [ConsoleError "SEO analysis error:" invalidURL] 0, inl invalidURL).
Proof.
  exact (C5_invalid_url_fails_before_io example_runtime "not a url" true start
           eq_refl).
Defined.

(** ** C6 *)

(** C6, as stated, fails: the error that reaches the caller is not the
    collaborator's. *)
Lemma C6_scrape_error_not_propagated :
  blink_data_scrape offline_runtime "https://example.com/" = inl networkError /\
  snd (analyzeWebsite offline_runtime "https://example.com/" true start)
  <> inl networkError.
Proof. split; [reflexivity|]. vm_compute. discriminate. Qed.

(** C6, amended. For a URL that parses, a failing scrape makes
    [analyzeWebsite] fail, with no result, and the error is a new [Error]
    with a fixed message; the collaborator's error is only logged. *)
Theorem C6_scrape_failure_replaced rt url onProgress w u e :
  URL_parse rt url = Some u ->
  blink_data_scrape rt (URL.toString u) = inl e ->
  analyzeWebsite rt url onProgress w
  = (mkWorld
       (log w ++ (if onProgress then [Progress 10] else [])
        ++ [ScrapeCall (URL.toString u);
            ConsoleError "Error scraping website:" e;
            ConsoleError "SEO analysis error:" scrapeError])
       (draws w),
     inl scrapeError).
Proof.
  intros Hu He.
  unfold analyzeWebsite, try_catch, bind, lift, new_URL, progress,
    scrapeWebsite, try_catch, bind, lift, console_error, emit, throw, ret.
  rewrite Hu. destruct onProgress; cbn [log draws]; rewrite He; cbn [log draws];
    rewrite <- ?app_assoc; reflexivity.
Qed.

Lemma C6_scrape_failure_witness :
  analyzeWebsite offline_runtime "https://example.com/" true start
  = (mkWorld
       [Progress 10; ScrapeCall "https://example.com/";
        ConsoleError "Error scraping website:" networkError;
        ConsoleError "SEO analysis error:" scrapeError] 0,
     inl scrapeError).
Proof.
  exact (C6_scrape_failure_replaced offline_runtime "https://example.com/" true
           start (URL.mk "https://example.com/" "example.com") networkError
           eq_refl eq_refl).
Defined.

(** ** C1 *)

(** The integer terms of the model are what binary64 computes: checked for
    every length below 1000. *)
Remark integer_terms_exact :
  forallb
    (fun n =>
       same (Math_max (of_Z 0) (sub (of_Z 100) (mul (of_nat n) (of_Z 5))))
            (of_Z (Z.max 0 (100 - Z.of_nat n * 5)))
       && same (Math_max (of_nat n) (of_Z 1)) (of_Z (Z.max (Z.of_nat n) 1)))
    (seq 0 1000) = true.
Proof. vm_compute. reflexivity. Qed.


(** C1, as stated, fails: with the sub-scores 72, 88, 15, 56 and three
    negative factors the weighted sum is 63.5, which rounds to 64, and the
    code, whose binary64 sum is 63.49999999999999, gives 63. *)
Lemma C1_score_below_formula :
  overallScore (metrics_of 72 88 15 56)
    (repeat (SEOFactor.mk "" "" low "" None None) 3) = of_Z 63
  /\ (weightedSum 72 88 15 56 3 == 127 # 2)%Q
  /\ score_formula 72 88 15 56 3 = 64
  /\ of_Z 63 <> of_Z 64.
Proof. vm_compute. repeat split; discriminate. Qed.

(** At a tie the score can also be the rounded weighted sum itself: one
    sub-score of 2 and twenty negative factors give 0.5 and the score 1. *)
Remark score_at_tie :
  overallScore (metrics_of 0 2 0 0)
    (repeat (SEOFactor.mk "" "" low "" None None) 20) = of_Z 1
  /\ tie 0 2 0 0 20
  /\ score_formula 0 2 0 0 20 = 1.
Proof. vm_compute. repeat split. Qed.

(** C1, amended. For integer sub-scores in [0..100] and any list of negative
    factors, the score is the rounded weighted sum of the specification, or
    one less when that sum is halfway between two integers (the binary64
    sum can then fall just below it); it is an integer of [0..100]; it
    depends on nothing but the four sub-scores and the number of negative
    factors; and it is the score of every result that [analyzeWebsite]
    returns with these metrics and these negative factors. *)
Theorem C1_score_formula tm negativeFactors a b c d :
  TechnicalMetrics.seoScore tm = of_Z a ->
  TechnicalMetrics.performance tm = of_Z b ->
  TechnicalMetrics.accessibility tm = of_Z c ->
  TechnicalMetrics.bestPractices tm = of_Z d ->
  0 <= a <= 100 -> 0 <= b <= 100 -> 0 <= c <= 100 -> 0 <= d <= 100 ->
  let n := List.length negativeFactors in
  (overallScore tm negativeFactors = of_Z (score_formula a b c d n)
   \/ (tie a b c d n
       /\ overallScore tm negativeFactors = of_Z (score_formula a b c d n - 1)))
  /\ (exists z, 0 <= z <= 100 /\ overallScore tm negativeFactors = of_Z z)
  /\ (forall tm' negativeFactors',
        TechnicalMetrics.seoScore tm' = TechnicalMetrics.seoScore tm ->
        TechnicalMetrics.performance tm' = TechnicalMetrics.performance tm ->
        TechnicalMetrics.accessibility tm' = TechnicalMetrics.accessibility tm ->
        TechnicalMetrics.bestPractices tm' = TechnicalMetrics.bestPractices tm ->
        List.length negativeFactors' = List.length negativeFactors ->
        overallScore tm' negativeFactors' = overallScore tm negativeFactors)
  /\ (forall rt url onProgress w w' r,
        analyzeWebsite rt url onProgress w = (w', inr r) ->
        AuditResult.technicalMetrics r = tm ->
        AuditResult.negativeFactors r = negativeFactors ->
        AuditResult.score r = overallScore tm negativeFactors).
Proof.
  intros Ea Eb Ec Ed Ha Hb Hc Hd. cbv zeta.
  set (n := List.length negativeFactors).
  pose proof (weighted_sum_rounds a b c d n Ha Hb Hc Hd) as R.
  destruct (score_formula_twentieths a b c d n) as [F T].
  cbv zeta in R, F, T.
  set (k := 6 * a + 5 * b + 4 * c + 3 * d
            + 2 * Z.max 0 (100 - Z.of_nat n * 5)) in *.
  assert (S : overallScore tm negativeFactors
              = Math_round
                  (add (add (add (add (mul (of_Z a) (lit 3 1))
                                      (mul (of_Z b) (lit 25 2)))
                                 (mul (of_Z c) (lit 2 1)))
                            (mul (of_Z d) (lit 15 2)))
                       (mul (of_Z (Z.max 0 (100 - Z.of_nat n * 5))) (lit 1 1))))
    by (unfold overallScore; now rewrite Ea, Eb, Ec, Ed).
  repeat split.
  - rewrite S, F. destruct R as [R|[M R]]; [now left|].
    right. split; [exact (T M) | exact R].
  - assert (B : 0 <= k <= 2000) by (subst k; lia).
    assert (U : 0 <= (k + 10) / 20 <= 100).
    { split; [apply Z.div_pos; lia|].
      apply Z.lt_succ_r, Z.div_lt_upper_bound; lia. }
    rewrite S. destruct R as [R|[M R]]; eexists; (split; [|exact R]);
      [exact U|].
    assert (L : 1 <= (k + 10) / 20).
    { apply Z.div_le_lower_bound; [lia|].
      pose proof (Z.div_mod k 20 ltac:(lia)).
      assert (0 <= k / 20) by (apply Z.div_pos; lia). lia. }
    lia.
  - intros tm' negativeFactors' E1 E2 E3 E4 E5. unfold overallScore.
    now rewrite E1, E2, E3, E4, E5.
  - intros rt url onProgress w w' r Hrun <- <-.
    exact (analyzeWebsite_score _ _ _ _ _ _ Hrun).
Qed.

Lemma C1_score_witness :
  exists w' r,
    analyzeWebsite example_runtime "https://example.com/" true start
    = (w', inr r)
    /\ AuditResult.score r = of_Z (score_formula 95 90 80 100 2)
    /\ score_formula 95 90 80 100 2 = 91.
Proof.
  destruct (analyzeWebsite example_runtime "https://example.com/" true start)
    as [w' [e|r]] eqn:E; [vm_compute in E; discriminate E|].
  exists w', r. split; [reflexivity|]. split; [|vm_compute; reflexivity].
  assert (V : TechnicalMetrics.seoScore (AuditResult.technicalMetrics r)
              = of_Z 95
              /\ TechnicalMetrics.performance (AuditResult.technicalMetrics r)
                 = of_Z 90
              /\ TechnicalMetrics.accessibility (AuditResult.technicalMetrics r)
                 = of_Z 80
              /\ TechnicalMetrics.bestPractices (AuditResult.technicalMetrics r)
                 = of_Z 100
              /\ List.length (AuditResult.negativeFactors r) = 2%nat).
  { pose proof E as E'. vm_compute in E'. inversion E'. vm_compute.
    repeat split. }
  destruct V as (Va & Vb & Vc & Vd & Vn).
  destruct (C1_score_formula (AuditResult.technicalMetrics r)
              (AuditResult.negativeFactors r) 95 90 80 100 Va Vb Vc Vd
              ltac:(lia) ltac:(lia) ltac:(lia) ltac:(lia))
    as (F & _ & _ & Run).
  rewrite (Run _ _ _ _ _ _ E eq_refl eq_refl). rewrite Vn in F.
  destruct F as [F|[T _]]; [exact F|].
  vm_compute in T. discriminate T.
Defined.

(** ** C4 *)

(** An absent category or audit takes its default. *)
Lemma absent_defaults cleanUrl metadata pageContent :
  let tm := buildTechnicalMetrics cleanUrl metadata empty_report pageContent in
  TechnicalMetrics.performance tm = of_Z 70 /\
  TechnicalMetrics.seoScore tm = of_Z 75 /\
  TechnicalMetrics.accessibility tm = of_Z 80 /\
  TechnicalMetrics.bestPractices tm = of_Z 85 /\
  TechnicalMetrics.coreWebVitals tm
  = CoreWebVitals.mk (of_Z 2500) (of_Z 100) (lit 1 1).
Proof. cbv zeta. repeat split; vm_compute; reflexivity. Qed.

(** A category score that is neither [0] nor [NaN] is scaled and rounded. *)
Lemma present_fraction cleanUrl metadata report pageContent fraction :
  categoryScore report Report.cat_performance = Some fraction ->
  truthy fraction = true ->
  TechnicalMetrics.performance
    (buildTechnicalMetrics cleanUrl metadata report pageContent)
  = Math_round (mul fraction (of_Z 100)).
Proof.
  intros H T. unfold buildTechnicalMetrics.
  cbn [TechnicalMetrics.performance]. unfold percent, num_or.
  now rewrite H, T.
Qed.

(** C4. A report whose performance category has the score [0] gets the
    default of an absent category, 70, and not [round(0 * 100) = 0]. *)
Theorem C4_zero_fraction_takes_default cleanUrl metadata report pageContent :
  categoryScore report Report.cat_performance = Some (of_Z 0) ->
  TechnicalMetrics.performance
    (buildTechnicalMetrics cleanUrl metadata report pageContent) = of_Z 70
  /\ Math_round (mul (of_Z 0) (of_Z 100)) = of_Z 0
  /\ of_Z 70 <> of_Z 0.
Proof.
  intros H. unfold buildTechnicalMetrics.
  cbn [TechnicalMetrics.performance]. unfold percent, num_or. rewrite H.
  repeat split; vm_compute; [reflexivity..|discriminate].
Qed.

Lemma C4_zero_fraction_witness :
  TechnicalMetrics.performance
    (buildTechnicalMetrics "https://example.com/" None
       report_with_zero_performance (page_with_title "")) = of_Z 70.
Proof.
  exact (proj1 (C4_zero_fraction_takes_default "https://example.com/" None
                  report_with_zero_performance (page_with_title "") eq_refl)).
Defined.

(** ** C8 *)

(** C8, as stated, fails: with 29 of 200 images carrying an alt text the
    code gives 14, where [round(100 * 29 / 200)] is 15. *)
Lemma C8_image_optimization_differs :
  TechnicalMetrics.imageOptimization
    (buildTechnicalMetrics "https://example.com/" None empty_report
       page_with_200_images) = of_Z 14
  /\ imageOptimization_formula
       (countOf Image.hasAlt (PageContent.images page_with_200_images))
       (List.length (PageContent.images page_with_200_images)) = of_Z 15
  /\ of_Z 14 <> of_Z 15.
Proof. vm_compute. repeat split; discriminate. Qed.

(** C8, amended. [headingsStructure] holds exactly when one heading has
    level 1; [imageOptimization] is the rounded product by 100 of the
    binary64 quotient [imagesWithAlt / max(totalImages, 1)]; it is [0] for a
    page without images. *)
Theorem C8_derived_metrics cleanUrl metadata report pageContent :
  let tm := buildTechnicalMetrics cleanUrl metadata report pageContent in
  let images := PageContent.images pageContent in
  (TechnicalMetrics.headingsStructure tm = true <->
   countOf (fun h => (Heading.level h =? 1)%nat)
     (PageContent.headings pageContent) = 1%nat)
  /\ TechnicalMetrics.imageOptimization tm
     = Math_round
         (mul (div (of_nat (countOf Image.hasAlt images))
                 (of_Z (Z.max (Z.of_nat (List.length images)) 1)))
              (of_Z 100))
  /\ (images = [] -> TechnicalMetrics.imageOptimization tm = of_Z 0).
Proof.
  cbv zeta. unfold buildTechnicalMetrics.
  cbn [TechnicalMetrics.headingsStructure TechnicalMetrics.imageOptimization].
  repeat split.
  - apply Nat.eqb_eq.
  - apply Nat.eqb_eq.
  - intros ->. vm_compute. reflexivity.
Qed.

Lemma C8_derived_metrics_witness :
  TechnicalMetrics.imageOptimization
    (buildTechnicalMetrics "https://example.com/" None empty_report
       (page_with_title "")) = of_Z 0.
Proof.
  exact (proj2 (proj2 (C8_derived_metrics "https://example.com/" None
                         empty_report (page_with_title ""))) eq_refl).
Defined.

(** ** The content extractor *)

Lemma split_runs_nonempty sep s : forall cur inRun,
  (1 <= List.length (split_runs sep cur inRun s))%nat.
Proof.
  induction s as [|c s IH]; intros cur inRun; cbn; [lia|].
  destruct (sep c); [destruct inRun|]; cbn; try apply IH.
  pose proof (IH "" true). lia.
Qed.

(** Two segments are separated by at least one character that is not a
    separator. *)
Lemma split_runs_length sep s : forall cur inRun,
  (2 * (List.length (split_runs sep cur inRun s) - 1)
   <= String.length s + (if inRun then 0 else 1))%nat.
Proof.
  induction s as [|c s IH]; intros cur inRun; cbn [split_runs String.length].
  - cbn. lia.
  - destruct (sep c); [destruct inRun|].
    + specialize (IH "" true). cbv iota in IH. lia.
    + specialize (IH "" true). cbv iota in IH.
      pose proof (split_runs_nonempty sep s "" true). cbn [List.length]. lia.
    + specialize (IH (cur ++ String c "") false). cbv iota in IH.
      destruct inRun; lia.
Qed.

Lemma length_append s t :
  String.length (s ++ t) = (String.length s + String.length t)%nat.
Proof. induction s as [|c s IH]; cbn; [reflexivity|]. now rewrite IH. Qed.

(** Every word has a character of its own. *)
Lemma split_runs_words sep s : forall cur inRun,
  (List.length
     (filter (fun word => (0 <? String.length word)%nat)
        (split_runs sep cur inRun s))
   <= String.length cur + String.length s)%nat.
Proof.
  set (nonEmpty := fun word => (0 <? String.length word)%nat).
  assert (Hcur : forall cur l,
             (List.length (filter nonEmpty (cur :: l))
              <= String.length cur + List.length (filter nonEmpty l))%nat).
  { intros [|a cur] l; cbn; lia. }
  induction s as [|c s IH]; intros cur inRun; cbn [split_runs String.length].
  - specialize (Hcur cur []).
    change (filter nonEmpty []) with (@nil string) in Hcur.
    cbn [List.length] in Hcur. lia.
  - destruct (sep c); [destruct inRun|].
    + specialize (IH "" true). cbn [String.length Nat.add] in IH. lia.
    + specialize (IH "" true). cbn [String.length Nat.add] in IH.
      specialize (Hcur cur (split_runs sep "" true s)). lia.
    + specialize (IH (cur ++ String c "") false).
      rewrite length_append in IH. cbn [String.length] in IH. lia.
Qed.

Lemma countSentences_bounds markdown :
  (1 <= countSentences markdown)%nat /\
  (2 * (countSentences markdown - 1) <= String.length markdown + 1)%nat.
Proof.
  unfold countSentences, split. split.
  - apply split_runs_nonempty.
  - apply (split_runs_length isSentenceEnd markdown "" false).
Qed.

Lemma countWords_bound markdown :
  (countWords markdown <= String.length markdown)%nat.
Proof.
  unfold countWords, split.
  apply (split_runs_words isWhitespace markdown "" false).
Qed.

(** What a page content that is returned holds. *)
Lemma analyzePageContent_inr rt markdown metadata pc :
  analyzePageContent rt markdown metadata = inr pc ->
  PageContent.wordCount pc = countWords markdown /\
  PageContent.readabilityScore pc
  = readability (countWords markdown) (countSentences markdown).
Proof.
  unfold analyzePageContent, rbind.
  destruct (links_of rt metadata _) as [e|links]; [discriminate|].
  destruct (property metadata "title" _) as [e|title]; [discriminate|].
  destruct (property metadata "description" _) as [e|description];
    [discriminate|].
  intros H. inversion H; subst. now split.
Qed.

(** ** C2 *)

(** C2, as stated, fails: eighty words without a sentence mark have a raw
    value below zero, about [-1.265], and the extractor returns [0]. *)
Lemma C2_readability_not_raw :
  exists pc,
    analyzePageContent example_runtime eighty_words (Some example_metadata)
    = inr pc
    /\ PageContent.readabilityScore pc = of_Z 0
    /\ SFltb (fleschEase (countWords eighty_words)
                (countSentences eighty_words)) (of_Z 0) = true
    /\ PageContent.readabilityScore pc
       <> fleschEase (countWords eighty_words) (countSentences eighty_words).
Proof.
  eexists. split; [vm_compute; reflexivity|].
  vm_compute. repeat split. discriminate.
Qed.

(** C2, amended. The readability score is the Flesch approximation of the
    specification clamped to [0..100]; the number of sentences is at least 1
    and the syllables are [words * 1.5]. *)
Theorem C2_readability_is_clamped rt markdown metadata pc :
  analyzePageContent rt markdown metadata = inr pc ->
  let words := countWords markdown in
  let sentences := countSentences markdown in
  let syllables := mul (of_nat words) (lit 15 1) in
  PageContent.readabilityScore pc
  = clamp
      (sub (sub (lit 206835 3)
              (mul (lit 1015 3) (div (of_nat words) (of_nat sentences))))
           (mul (lit 846 1) (div syllables (of_nat words))))
  /\ (1 <= sentences)%nat.
Proof.
  intros H. destruct (analyzePageContent_inr _ _ _ _ H) as [_ E].
  split; [exact E|]. apply countSentences_bounds.
Qed.

Lemma C2_readability_witness :
  exists pc,
    analyzePageContent example_runtime eighty_words (Some example_metadata)
    = inr pc
    /\ PageContent.readabilityScore pc
       = clamp (fleschEase (countWords eighty_words)
                  (countSentences eighty_words)).
Proof.
  destruct (analyzePageContent example_runtime eighty_words
              (Some example_metadata)) as [e|pc] eqn:E;
    [vm_compute in E; discriminate E|].
  exists pc. split; [reflexivity|].
  exact (proj1 (C2_readability_is_clamped example_runtime eighty_words
                  (Some example_metadata) pc E)).
Defined.

(** ** C3 *)

Lemma links_of_throws rt m ms :
  URL_parse rt (str_or (Metadata.url m) "") = None ->
  existsb isAbsolute ms = true ->
  links_of rt (Some m) ms = inl invalidURL.
Proof.
  intros Hu. induction ms as [|[text href] ms IH]; cbn [existsb links_of];
    [discriminate|].
  unfold isAbsolute at 1. cbn [snd link_of].
  destruct (startsWith "http" href); cbn [negb orb rbind property].
  - intros _. unfold new_URL. now rewrite Hu.
  - intros H. now rewrite (IH H).
Qed.

(** With a page URL that parses, a link is internal when its href does not
    start with [http] or contains the host name of the page. *)
Lemma link_of_parsed rt m u text href :
  URL_parse rt (str_or (Metadata.url m) "") = Some u ->
  link_of rt (Some m) (text, href)
  = inr (Link.mk href text
           (negb (startsWith "http" href) || includes (URL.hostname u) href)).
Proof.
  intros Hu. unfold link_of, new_URL. cbn [property rbind]. rewrite Hu.
  destruct (startsWith "http" href); reflexivity.
Qed.

(** C3. When the page's own URL does not parse (a missing one is parsed as
    the empty string), a text with a link whose href starts with [http] makes
    the extractor throw the parser's [TypeError]. *)
Theorem C3_unparsable_page_url_throws rt markdown m :
  URL_parse rt (str_or (Metadata.url m) "") = None ->
  existsb isAbsolute (scan link_at 0 markdown) = true ->
  analyzePageContent rt markdown (Some m) = inl invalidURL.
Proof.
  intros Hu Hl. unfold analyzePageContent.
  now rewrite (links_of_throws rt m _ Hu Hl).
Qed.

Lemma C3_unparsable_page_url_witness :
  analyzePageContent example_runtime "[site](http://example.com)"
    (Some metadata_without_url) = inl invalidURL.
Proof.
  exact (C3_unparsable_page_url_throws example_runtime
           "[site](http://example.com)" metadata_without_url eq_refl eq_refl).
Defined.

(** ** C10 *)

Lemma readability_no_words sentences : readability 0 sentences = S754_nan.
Proof.
  unfold readability, fleschEase.
  replace (mul (lit 846 1) (div (mul (of_nat 0) (lit 15 1)) (of_nat 0)))
    with S754_nan by (vm_compute; reflexivity).
  generalize (sub (lit 206835 3)
                (mul (lit 1015 3) (div (of_nat 0) (of_nat sentences)))).
  intros x. destruct x; reflexivity.
Qed.

(** C10. For a text with at least one word (and of a length that a string
    can have) the readability score is a number between 0 and 100; for a
    text without a word it is [NaN], the value of [0 / 0]. *)
Theorem C10_readability_range rt markdown metadata pc :
  analyzePageContent rt markdown metadata = inr pc ->
  Z.of_nat (String.length markdown) < 2 ^ 53 ->
  ((1 <= countWords markdown)%nat ->
   leb (of_Z 0) (PageContent.readabilityScore pc) = true /\
   leb (PageContent.readabilityScore pc) (of_Z 100) = true)
  /\ (countWords markdown = 0%nat ->
      PageContent.readabilityScore pc = S754_nan).
Proof.
  intros H Hlen. destruct (analyzePageContent_inr _ _ _ _ H) as [_ ->].
  split.
  - intros Hw. apply clamp_range, fleschEase_not_nan; try lia.
    + apply countSentences_bounds.
    + pose proof (countWords_bound markdown). lia.
    + pose proof (countSentences_bounds markdown) as [_ B]. lia.
  - intros ->. apply readability_no_words.
Qed.

Lemma C10_readability_witness :
  exists pc,
    analyzePageContent example_runtime example_markdown (Some example_metadata)
    = inr pc
    /\ leb (of_Z 0) (PageContent.readabilityScore pc) = true
    /\ leb (PageContent.readabilityScore pc) (of_Z 100) = true.
Proof.
  destruct (analyzePageContent example_runtime example_markdown
              (Some example_metadata)) as [e|pc] eqn:E;
    [vm_compute in E; discriminate E|].
  exists pc. split; [reflexivity|].
  apply (C10_readability_range example_runtime example_markdown
           (Some example_metadata) pc E).
  - vm_compute. reflexivity.
  - vm_compute. lia.
Defined.

(** ** The factor rules *)

Lemma append_assoc fs gs hs :
  append (append fs gs) hs = append fs (append gs hs).
Proof. unfold append. cbn. now rewrite <- !app_assoc. Qed.

(** A rule only adds to the arrays: what it adds does not depend on what
    they hold. *)
Lemma rule_appends rt pc tm rule :
  In rule (concerns rt pc tm) ->
  forall fs, rule fs = append fs (contribution rule).
Proof.
  unfold concerns, contribution.
  intros [<-|[<-|[<-|[<-|[<-|[<-|[<-|[]]]]]]]] [pos neg rec];
    unfold titleAnalysis, metaDescriptionAnalysis, headingStructureAnalysis,
      imageOptimizationAnalysis, contentLengthAnalysis, httpsAnalysis,
      performanceAnalysis;
    repeat match goal with
           | |- context [if ?b then _ else _] => destruct b
           end;
    unfold push_positive, push_negative, push_recommendation, append;
    cbn; now rewrite ?app_nil_r.
Qed.

(** A rule adds at most one factor to the positive and the negative array
    together, and a recommendation only next to a negative factor. *)
Lemma rule_sizes rt pc tm rule :
  In rule (concerns rt pc tm) ->
  (List.length (Factors.positiveFactors (contribution rule))
   + List.length (Factors.negativeFactors (contribution rule)) <= 1)%nat
  /\ (List.length (Factors.recommendations (contribution rule))
      <= List.length (Factors.negativeFactors (contribution rule)))%nat.
Proof.
  unfold concerns, contribution.
  intros [<-|[<-|[<-|[<-|[<-|[<-|[<-|[]]]]]]]];
    unfold titleAnalysis, metaDescriptionAnalysis, headingStructureAnalysis,
      imageOptimizationAnalysis, contentLengthAnalysis, httpsAnalysis,
      performanceAnalysis;
    repeat match goal with
           | |- context [if ?b then _ else _] => destruct b
           end;
    cbn; lia.
Qed.

Lemma analyzeSEOFactors_fold rt pc tm :
  analyzeSEOFactors rt pc tm
  = fold_left (fun fs rule => rule fs) (concerns rt pc tm) Factors.empty.
Proof. reflexivity. Qed.

Lemma fold_rules_negative rt pc tm rules : forall fs,
  (forall rule, In rule rules -> In rule (concerns rt pc tm)) ->
  (List.length
     (Factors.negativeFactors (fold_left (fun fs rule => rule fs) rules fs))
   <= List.length (Factors.negativeFactors fs) + List.length rules)%nat.
Proof.
  induction rules as [|rule rules IH]; intros fs Hin; cbn [fold_left List.length].
  - lia.
  - assert (Hr : In rule (concerns rt pc tm)) by (apply Hin; now left).
    specialize (IH (rule fs) (fun r H => Hin r (or_intror H))).
    pose proof (rule_sizes rt pc tm rule Hr) as [S1 _].
    assert (L : List.length (Factors.negativeFactors (rule fs))
                = (List.length (Factors.negativeFactors fs)
                   + List.length (Factors.negativeFactors (contribution rule)))%nat).
    { rewrite (rule_appends rt pc tm rule Hr fs). unfold append.
      cbn [Factors.negativeFactors]. apply length_app. }
    lia.
Qed.

Lemma negativeFactors_bound rt pc tm :
  (List.length (Factors.negativeFactors (analyzeSEOFactors rt pc tm)) <= 7)%nat.
Proof.
  rewrite analyzeSEOFactors_fold.
  pose proof (fold_rules_negative rt pc tm (concerns rt pc tm) Factors.empty
                (fun r H => H)) as B.
  cbn [Factors.empty Factors.negativeFactors List.length] in B.
  exact B.
Qed.

(** The title rule comes first: what it adds heads the three arrays. *)
Lemma title_rule_first rt pc tm :
  exists rest,
    analyzeSEOFactors rt pc tm
    = append (contribution (titleAnalysis rt pc)) rest.
Proof.
  assert (R : forall rule, In rule (concerns rt pc tm) ->
              forall fs, rule fs = append fs (contribution rule))
    by (intros rule Hr; exact (rule_appends rt pc tm rule Hr)).
  unfold analyzeSEOFactors.
  rewrite (R (performanceAnalysis rt tm)) by (cbn; tauto).
  rewrite (R (httpsAnalysis tm)) by (cbn; tauto).
  rewrite (R (contentLengthAnalysis rt pc)) by (cbn; tauto).
  rewrite (R (imageOptimizationAnalysis rt pc)) by (cbn; tauto).
  rewrite (R (headingStructureAnalysis rt pc)) by (cbn; tauto).
  rewrite (R (metaDescriptionAnalysis rt pc)) by (cbn; tauto).
  rewrite !append_assoc. eexists. reflexivity.
Qed.

Lemma nonempty_title s : String.length s <> 0%nat -> String.eqb s "" = false.
Proof. intros H. destruct s; [now elim H|reflexivity]. Qed.

(** ** C7 *)

(** C7. A title of exactly 30 or 60 characters adds one positive factor,
    of high impact and status [pass], and nothing else; a title of 29 or 61
    characters adds one negative factor of high impact and the
    recommendation to optimize the title length; an empty title adds one
    negative factor and no recommendation.  What the title rule adds heads
    the arrays that [analyzeSEOFactors] returns. *)
Theorem C7_title_length_boundaries rt pc tm :
  let len := String.length (PageContent.title pc) in
  let added := contribution (titleAnalysis rt pc) in
  (exists rest, analyzeSEOFactors rt pc tm = append added rest)
  /\ (len = 30%nat \/ len = 60%nat ->
      exists f, added = Factors.mk [f] [] []
        /\ SEOFactor.impact f = high /\ SEOFactor.status f = Some pass)
  /\ (len = 29%nat \/ len = 61%nat ->
      exists f r, added = Factors.mk [] [f] [r]
        /\ SEOFactor.impact f = high /\ SEOFactor.status f = Some fail
        /\ SEOFactor.title r = "Optimize Title Length")
  /\ (PageContent.title pc = "" ->
      exists f, added = Factors.mk [] [f] []
        /\ SEOFactor.impact f = high /\ SEOFactor.status f = Some fail).
Proof.
  cbn zeta. split; [apply title_rule_first|].
  unfold contribution, titleAnalysis.
  repeat split.
  - intros H. rewrite nonempty_title by (destruct H; lia).
    destruct H as [-> | ->]; cbn; eexists; repeat split.
  - intros H. rewrite nonempty_title by (destruct H; lia).
    destruct H as [-> | ->]; cbn; do 2 eexists; repeat split.
  - intros ->. cbn. eexists. repeat split.
Qed.

Lemma C7_title_length_witness :
  exists f,
    contribution (titleAnalysis example_runtime
                    (page_with_title (repeatString 30 "a")))
    = Factors.mk [f] [] []
    /\ SEOFactor.impact f = high /\ SEOFactor.status f = Some pass.
Proof.
  exact (proj1 (proj2 (C7_title_length_boundaries example_runtime
                         (page_with_title (repeatString 30 "a"))
                         (metrics_of 0 0 0 0)))
           (or_introl eq_refl)).
Defined.

(** ** C9 *)

(** C9, as stated, fails: for a title of 29 characters the title concern
    adds two factors, a negative one and a recommendation. *)
Lemma C9_title_concern_adds_two :
  let pc := page_with_title (repeatString 29 "a") in
  let tm := metrics_of 0 0 0 0 in
  In (titleAnalysis example_runtime pc) (concerns example_runtime pc tm)
  /\ size (contribution (titleAnalysis example_runtime pc)) = 2%nat
  /\ ~ (forall rule, In rule (concerns example_runtime pc tm) ->
          (size (contribution rule) <= 1)%nat).
Proof.
  cbn zeta. split; [now left|]. split; [reflexivity|].
  intros H. specialize (H _ (or_introl eq_refl)). vm_compute in H. lia.
Qed.

(** C9, amended. The analyzer runs seven rules in order.  Each rule adds at
    most one factor to the positive and the negative array together, and a
    recommendation only next to a negative factor.  So there are at most
    seven negative factors, and [100 - 5 * negativeFactors.length] is at
    least 65: the [max] with 0 of the score returns it. *)
Theorem C9_negative_factors_bounded rt pc tm :
  let rules := concerns rt pc tm in
  let n := Z.of_nat (List.length (Factors.negativeFactors
                                    (analyzeSEOFactors rt pc tm))) in
  List.length rules = 7%nat
  /\ analyzeSEOFactors rt pc tm
     = fold_left (fun fs rule => rule fs) rules Factors.empty
  /\ (forall rule, In rule rules ->
        (forall fs, rule fs = append fs (contribution rule))
        /\ (List.length (Factors.positiveFactors (contribution rule))
            + List.length (Factors.negativeFactors (contribution rule))
            <= 1)%nat
        /\ (List.length (Factors.recommendations (contribution rule))
            <= List.length (Factors.negativeFactors (contribution rule)))%nat)
  /\ n <= 7
  /\ 65 <= 100 - n * 5
  /\ Z.max 0 (100 - n * 5) = 100 - n * 5.
Proof.
  cbn zeta. pose proof (negativeFactors_bound rt pc tm) as B.
  repeat split; try reflexivity; try lia.
  - now apply (rule_appends rt pc tm).
  - now apply (rule_sizes rt pc tm).
  - now apply (rule_sizes rt pc tm).
Qed.

Lemma C9_negative_factors_witness :
  (List.length
     (Factors.negativeFactors
        (analyzeSEOFactors example_runtime
           (page_with_title (repeatString 29 "a")) (metrics_of 0 0 0 0)))
   <= 7)%nat.
Proof.
  destruct (C9_negative_factors_bounded example_runtime
              (page_with_title (repeatString 29 "a")) (metrics_of 0 0 0 0))
    as (_ & _ & _ & B & _).
  lia.
Defined.

(** * Collaborators, extractor, orchestrator, rules and page

    Properties that the code has beside those of its specification. *)

(** ** Runs of the collaborators *)

Lemma extend_nil w : extend [] 0 w = w.
Proof. destruct w. unfold extend. cbn. now rewrite app_nil_r, Nat.add_0_r. Qed.

Lemma extend_extend evs k evs' k' w :
  extend evs' k' (extend evs k w) = extend (evs ++ evs') (k + k') w.
Proof. unfold extend. cbn. now rewrite app_assoc, Nat.add_assoc. Qed.

Lemma newEvents_extend evs k w : newEvents w (extend evs k w) = evs.
Proof.
  unfold newEvents, extend. cbn [log].
  rewrite skipn_app, skipn_all, Nat.sub_diag. reflexivity.
Qed.

Lemma newEvents_app w w' evs :
  log w' = (log w ++ evs)%list -> newEvents w w' = evs.
Proof.
  unfold newEvents. intros ->.
  rewrite skipn_app, skipn_all, Nat.sub_diag. reflexivity.
Qed.

Lemma progress_run onProgress percent w :
  progress onProgress percent w = (extend (reported onProgress percent) 0 w, inr tt).
Proof.
  destruct onProgress; cbn.
  - unfold emit, extend. now rewrite Nat.add_0_r.
  - unfold ret. now rewrite extend_nil.
Qed.

Lemma scrapeWebsite_run rt url w :
  scrapeWebsite rt url w
  = match blink_data_scrape rt url with
    | inr scraped => (extend [ScrapeCall url] 0 w, inr scraped)
    | inl e =>
        (extend [ScrapeCall url; ConsoleError "Error scraping website:" e] 0 w,
         inl scrapeError)
    end.
Proof.
  cbv [scrapeWebsite try_catch bind lift emit ret console_error throw extend].
  destruct (blink_data_scrape rt url); cbn [log draws];
    now rewrite Nat.add_0_r, <- ?app_assoc.
Qed.

Lemma getMockPageSpeedData_run rt w :
  getMockPageSpeedData rt w = (extend [] 7 w, inr (mockReport rt (draws w))).
Proof.
  destruct w as [l d].
  cbv [getMockPageSpeedData bind random ret extend mockReport].
  cbn [log draws].
  rewrite app_nil_r.
  replace (d + 7)%nat with (S (S (S (S (S (S (S d))))))) by lia.
  rewrite Nat.add_0_r.
  replace (d + 1)%nat with (S d) by lia.
  replace (d + 2)%nat with (S (S d)) by lia.
  replace (d + 3)%nat with (S (S (S d))) by lia.
  replace (d + 4)%nat with (S (S (S (S d)))) by lia.
  replace (d + 5)%nat with (S (S (S (S (S d))))) by lia.
  replace (d + 6)%nat with (S (S (S (S (S (S d)))))) by lia.
  reflexivity.
Qed.

Lemma getPageSpeedInsights_run rt url w :
  getPageSpeedInsights rt url w
  = (extend (FetchCall (pageSpeedRequest url) :: pageSpeedErrors rt url)
       (drawn rt url) w,
     inr (pageSpeedValue rt url (draws w))).
Proof.
  cbv [getPageSpeedInsights try_catch bind lift emit console_error].
  unfold pageSpeedErrors, drawn, mocked, pageSpeedValue.
  destruct (blink_data_fetch rt (pageSpeedRequest url)) as [e|response].
  - rewrite getMockPageSpeedData_run. cbv [ret extend].
    cbn [log draws]. now rewrite app_nil_r, <- app_assoc.
  - destruct (Fetch.status response =? 200); cbn [negb].
    + cbv [ret extend]. cbn [log draws]. now rewrite Nat.add_0_r.
    + rewrite getMockPageSpeedData_run. cbv [ret extend].
      cbn [log draws]. now rewrite app_nil_r.
Qed.

Lemma mockReport_complete rt k : complete (mockReport rt k).
Proof. repeat split; discriminate. Qed.

(** X1. [getPageSpeedInsights] never throws.  It gives the body of a
    response with status 200 as it is, [undefined] included, and then draws
    no random number; after any other response, and after a rejected fetch,
    it gives the mock report, which has every category score and every
    audit value, and has drawn seven numbers. *)
Theorem getPageSpeedInsights_returns rt url w :
  exists w' data,
    getPageSpeedInsights rt url w = (w', inr data)
    /\ ((exists response,
           blink_data_fetch rt (pageSpeedRequest url) = inr response
           /\ Fetch.status response = 200
           /\ data = Fetch.body response
           /\ draws w' = draws w)
        \/ (exists report,
              data = Some report
              /\ complete report
              /\ draws w' = (draws w + 7)%nat
              /\ forall response,
                   blink_data_fetch rt (pageSpeedRequest url) = inr response ->
                   Fetch.status response <> 200)).
Proof.
  rewrite getPageSpeedInsights_run. do 2 eexists. split; [reflexivity|].
  unfold pageSpeedValue, drawn, mocked. cbn [extend draws].
  destruct (blink_data_fetch rt (pageSpeedRequest url)) as [e|response].
  - right. eexists. split; [reflexivity|].
    split; [apply mockReport_complete|]. split; [reflexivity|]. discriminate.
  - destruct (Fetch.status response =? 200) eqn:S; cbn [negb].
    + left. exists response. apply Z.eqb_eq in S.
      repeat split; [exact S | apply Nat.add_0_r].
    + right. eexists. split; [reflexivity|].
      split; [apply mockReport_complete|]. split; [reflexivity|].
      intros r H. inversion H; subst. now apply Z.eqb_neq.
Qed.

(** ** Runs of the orchestrator *)

Lemma bind_inl {A B} (m : M A) (k : A -> M B) w w' e :
  bind m k w = (w', inl e) ->
  m w = (w', inl e) \/ exists a w1, m w = (w1, inr a) /\ k a w1 = (w', inl e).
Proof.
  unfold bind. destruct (m w) as [w1 [e1|a]]; intros H.
  - left. inversion H. reflexivity.
  - right. now exists a, w1.
Qed.

Lemma bind_run {A B} (m : M A) (k : A -> M B) w w1 a :
  m w = (w1, inr a) -> bind m k w = k a w1.
Proof. unfold bind. now intros ->. Qed.

Ltac run_progress H :=
  rewrite progress_run in H; inversion H; subst; clear H.

Ltac lifted H E := unfold lift in H; apply pair_equal_spec in H as [<- E].

(** A run returns exactly when each of its steps does. *)
Lemma analyzeWebsite_inr rt url onProgress w w' r :
  analyzeWebsite rt url onProgress w = (w', inr r)
  <-> exists u scraped report pc sd sm,
        URL_parse rt url = Some u
        /\ blink_data_scrape rt (URL.toString u) = inr scraped
        /\ pageSpeedValue rt (URL.toString u) (draws w) = Some report
        /\ analyzePageContent rt (Scrape.markdown scraped)
             (Scrape.metadata scraped) = inr pc
        /\ analyzeStructuredData (Scrape.markdown scraped)
             (Scrape.metadata scraped) = inr sd
        /\ analyzeSocialMedia (Scrape.metadata scraped) = inr sm
        /\ w' = extend (eventsOfRun rt onProgress (URL.toString u))
                  (drawn rt (URL.toString u)) w
        /\ r = auditOf rt (URL.toString u) scraped report pc sd sm.
Proof.
  split.
  - unfold analyzeWebsite, try_catch.
    match goal with |- context [match ?body w with _ => _ end] =>
      destruct (body w) as [w1 [e|a]] eqn:B end.
    { cbv [bind console_error emit throw]. discriminate. }
    intros H. inversion H; subst. clear H.
    apply bind_inr in B as (u & w2 & Step & B).
    lifted Step Hu. unfold new_URL in Hu.
    destruct (URL_parse rt url) as [u'|]; inversion Hu; subst; clear Hu.
    apply bind_inr in B as (? & w3 & Step & B). run_progress Step.
    apply bind_inr in B as (scraped & w4 & Step & B).
    rewrite scrapeWebsite_run in Step.
    destruct (blink_data_scrape rt (URL.toString u)) as [e|scraped'] eqn:Hs;
      inversion Step; subst; clear Step.
    apply bind_inr in B as (? & w5 & Step & B). run_progress Step.
    apply bind_inr in B as (data & w6 & Step & B).
    rewrite getPageSpeedInsights_run in Step.
    apply pair_equal_spec in Step as [<- Hd].
    apply bind_inr in B as (? & w7 & Step & B). run_progress Step.
    apply bind_inr in B as (pc & w8 & Step & B). lifted Step Hpc.
    apply bind_inr in B as (? & w9 & Step & B). run_progress Step.
    apply bind_inr in B as (report & w10 & Step & B). lifted Step Hr.
    apply bind_inr in B as (? & w11 & Step & B). run_progress Step.
    apply bind_inr in B as (sd & w12 & Step & B). lifted Step Hsd.
    apply bind_inr in B as (sm & w13 & Step & B). lifted Step Hsm.
    apply bind_inr in B as (? & w14 & Step & B). run_progress Step.
    apply bind_inr in B as (? & w15 & Step & B). run_progress Step.
    unfold ret in B. inversion B; subst; clear B.
    exists u, scraped, report, pc, sd, sm.
    split; [reflexivity|]. split; [exact Hs|].
    split.
    { cbn [extend draws] in Hd. rewrite !Nat.add_0_r in Hd.
      inversion Hd as [Hd']. rewrite <- Hd' in Hr.
      destruct (pageSpeedValue rt (URL.toString u) (draws w));
        inversion Hr; reflexivity. }
    split; [exact Hpc|]. split; [exact Hsd|]. split; [exact Hsm|].
    split; [|reflexivity].
    rewrite !extend_extend. unfold eventsOfRun. f_equal. lia.
  - intros (u & scraped & report & pc & sd & sm
            & Hu & Hs & Hd & Hpc & Hsd & Hsm & -> & ->).
    unfold analyzeWebsite, try_catch.
    erewrite bind_run by (unfold lift, new_URL; rewrite Hu; reflexivity).
    erewrite bind_run by apply progress_run.
    erewrite bind_run by (rewrite scrapeWebsite_run, Hs; reflexivity).
    erewrite bind_run by apply progress_run.
    erewrite bind_run by apply getPageSpeedInsights_run.
    erewrite bind_run by apply progress_run.
    erewrite bind_run by (unfold lift; rewrite Hpc; reflexivity).
    erewrite bind_run by apply progress_run.
    cbn [extend draws]. rewrite !Nat.add_0_r, Hd.
    erewrite bind_run by (unfold lift; reflexivity).
    erewrite bind_run by apply progress_run.
    erewrite bind_run by (unfold lift; rewrite Hsd; reflexivity).
    erewrite bind_run by (unfold lift; rewrite Hsm; reflexivity).
    erewrite bind_run by apply progress_run.
    erewrite bind_run by apply progress_run.
    unfold ret. f_equal.
    unfold eventsOfRun, extend, reported. cbn [log draws].
    rewrite <- !app_assoc. f_equal. lia.
Qed.

(** ** What the content extractor returns *)

Lemma scan_Forall {A} (P : A -> Prop) matchAt :
  (forall s a n, matchAt s = Some (a, n) -> P a) ->
  forall s skip, Forall P (scan matchAt skip s).
Proof.
  intros H. induction s as [|c s IH]; intros skip; cbn [scan]; [constructor|].
  destruct skip as [|k]; [|apply IH].
  destruct (matchAt (String c s)) as [[a n]|] eqn:E; [|apply IH].
  constructor; [exact (H _ _ _ E) | apply IH].
Qed.

Lemma scanHeadings_Forall (P : Heading.t -> Prop) :
  (forall s h n, heading_at s = Some (h, n) -> P h) ->
  forall s lineStart skip, Forall P (scanHeadings lineStart skip s).
Proof.
  intros H. induction s as [|c s IH]; intros lineStart skip;
    cbn [scanHeadings]; [constructor|].
  destruct skip as [|k]; [|apply IH].
  destruct lineStart; [|apply IH].
  destruct (heading_at (String c s)) as [[h n]|] eqn:E; [|apply IH].
  constructor; [exact (H _ _ _ E) | apply IH].
Qed.

Lemma heading_at_level s h n :
  heading_at s = Some (h, n) -> (1 <= Heading.level h <= 6)%nat.
Proof.
  unfold heading_at.
  destruct ((1 <=? _) && (_ <=? 6))%nat eqn:K; [|discriminate].
  apply andb_prop in K as [K1 K2].
  apply Nat.leb_le in K1. apply Nat.leb_le in K2.
  destruct (takeWhile isWhitespace _); [discriminate|].
  destruct (dropWhile isWhitespace _).
  - destruct (lastNonTerminator _ _) as [[p c]|]; [|discriminate].
    intros H. inversion H; subst. cbn [Heading.level]. lia.
  - intros H. inversion H; subst. cbn [Heading.level]. lia.
Qed.

Lemma eqb_sym_ascii a b : Ascii.eqb a b = Ascii.eqb b a.
Proof.
  destruct (Ascii.eqb_spec a b) as [->|N].
  - symmetry. apply Ascii.eqb_refl.
  - symmetry. apply Ascii.eqb_neq. congruence.
Qed.

(** [upTo] stops at the first [stop]. *)
Lemma upTo_first stop s : forall a r,
  upTo stop s = Some (a, r) ->
  s = a ++ String stop r /\ includes (String stop "") a = false.
Proof.
  induction s as [|c s IH]; intros a r; cbn [upTo]; [discriminate|].
  destruct (Ascii.eqb c stop) eqn:E.
  - intros H. inversion H; subst. apply Ascii.eqb_eq in E. subst.
    split; reflexivity.
  - destruct (upTo stop s) as [[a' r']|]; [|discriminate].
    intros H. inversion H; subst.
    destruct (IH _ _ eq_refl) as [-> I]. split; [reflexivity|].
    cbn [includes startsWith]. rewrite eqb_sym_ascii, E. exact I.
Qed.

Lemma image_at_wellformed s img n :
  image_at s = Some (img, n) ->
  Image.src img <> ""
  /\ Image.hasAlt img = negb (String.eqb (Image.alt img) "")
  /\ includes "]" (Image.alt img) = false
  /\ includes ")" (Image.src img) = false.
Proof.
  unfold image_at.
  destruct s as [|c0 [|c1 r]]; try discriminate;
    try (destruct c0 as [[] [] [] [] [] [] [] []]; discriminate).
  destruct (Ascii.eqb_spec c0 "!") as [->|N0].
  2: { destruct c0 as [[] [] [] [] [] [] [] []]; try discriminate.
       now contradiction N0. }
  destruct (Ascii.eqb_spec c1 "[") as [->|N1].
  2: { destruct c1 as [[] [] [] [] [] [] [] []]; try discriminate.
       now contradiction N1. }
  destruct (upTo "]" r) as [[alt rest]|] eqn:U1; [|discriminate].
  destruct rest as [|c2 r']; [discriminate|].
  destruct (Ascii.eqb_spec c2 "(") as [->|N2].
  2: { destruct c2 as [[] [] [] [] [] [] [] []]; try discriminate.
       now contradiction N2. }
  destruct (upTo ")" r') as [[[|c src'] rest']|] eqn:U2; try discriminate.
  intros H. inversion H; subst. cbn [Image.src Image.alt Image.hasAlt].
  split; [discriminate|]. split; [now destruct alt|].
  split; [exact (proj2 (upTo_first _ _ _ _ U1))
         | exact (proj2 (upTo_first _ _ _ _ U2))].
Qed.

Lemma link_at_wellformed s text href n :
  link_at s = Some ((text, href), n) ->
  text <> "" /\ href <> ""
  /\ includes "]" text = false /\ includes ")" href = false.
Proof.
  unfold link_at.
  destruct s as [|c0 r]; [discriminate|].
  destruct (Ascii.eqb_spec c0 "[") as [->|N0].
  2: { destruct c0 as [[] [] [] [] [] [] [] []]; try discriminate.
       now contradiction N0. }
  destruct (upTo "]" r) as [[[|t text'] rest]|] eqn:U1; try discriminate.
  destruct rest as [|c2 r']; [discriminate|].
  destruct (Ascii.eqb_spec c2 "(") as [->|N2].
  2: { destruct c2 as [[] [] [] [] [] [] [] []]; try discriminate.
       now contradiction N2. }
  destruct (upTo ")" r') as [[[|c href'] rest']|] eqn:U2; try discriminate.
  intros H. inversion H; subst.
  split; [discriminate|]. split; [discriminate|].
  split; [exact (proj2 (upTo_first _ _ _ _ U1))
         | exact (proj2 (upTo_first _ _ _ _ U2))].
Qed.

(** The links of a page follow the matches of the link pattern. *)
Lemma links_of_matches rt metadata ms : forall links,
  links_of rt metadata ms = inr links ->
  map (fun l => (Link.text l, Link.href l)) links = ms
  /\ Forall (fun l =>
       if startsWith "http" (Link.href l) then
         exists m u,
           metadata = Some m
           /\ URL_parse rt (str_or (Metadata.url m) "") = Some u
           /\ Link.isInternal l = includes (URL.hostname u) (Link.href l)
       else Link.isInternal l = true) links.
Proof.
  induction ms as [|[text href] ms IH]; intros links; cbn [links_of].
  - intros H. inversion H. split; [reflexivity|constructor].
  - unfold rbind at 1.
    destruct (link_of rt metadata (text, href)) as [e|l] eqn:L; [discriminate|].
    unfold rbind.
    destruct (links_of rt metadata ms) as [e|ls]; [discriminate|].
    intros H. inversion H; subst. clear H.
    destruct (IH ls eq_refl) as [M F].
    assert (Hl : Link.text l = text /\ Link.href l = href
                 /\ if startsWith "http" href then
                      exists m u,
                        metadata = Some m
                        /\ URL_parse rt (str_or (Metadata.url m) "") = Some u
                        /\ Link.isInternal l = includes (URL.hostname u) href
                    else Link.isInternal l = true).
    { unfold link_of in L. destruct (startsWith "http" href); cbn [negb] in L.
      - unfold rbind in L. destruct metadata as [m|]; [|discriminate].
        cbn [property] in L. unfold new_URL in L.
        destruct (URL_parse rt (str_or (Metadata.url m) "")) as [u|] eqn:U;
          [|discriminate].
        inversion L; subst. cbn. repeat split. now exists m, u.
      - inversion L; subst. cbn. repeat split. }
    destruct Hl as (Ht & Hh & Hi). split.
    + cbn [map]. now rewrite Ht, Hh, M.
    + constructor; [|exact F]. now rewrite Hh.
Qed.

(** X2. The elements of a page content that is returned: a heading has a
    level from 1 to 6; an image has a source, an alt text without a closing
    bracket and a source without a closing parenthesis, and [hasAlt] says
    that the alt text is not empty; the links are the matches of the link
    pattern in their order, each with a text and an href; a link whose href
    does not start with [http] is internal, and any other link is internal
    exactly when the host name of the page URL occurs somewhere in it. *)
Theorem analyzePageContent_elements rt markdown metadata pc :
  analyzePageContent rt markdown metadata = inr pc ->
  Forall (fun h => (1 <= Heading.level h <= 6)%nat) (PageContent.headings pc)
  /\ Forall (fun img =>
       Image.src img <> ""
       /\ Image.hasAlt img = negb (String.eqb (Image.alt img) "")
       /\ includes "]" (Image.alt img) = false
       /\ includes ")" (Image.src img) = false) (PageContent.images pc)
  /\ map (fun l => (Link.text l, Link.href l)) (PageContent.links pc)
     = scan link_at 0 markdown
  /\ Forall (fun l =>
       Link.text l <> "" /\ Link.href l <> ""
       /\ if startsWith "http" (Link.href l) then
            exists m u,
              metadata = Some m
              /\ URL_parse rt (str_or (Metadata.url m) "") = Some u
              /\ Link.isInternal l = includes (URL.hostname u) (Link.href l)
          else Link.isInternal l = true) (PageContent.links pc).
Proof.
  unfold analyzePageContent, rbind.
  destruct (links_of rt metadata _) as [e|links] eqn:L; [discriminate|].
  destruct (property metadata "title" _) as [e|title]; [discriminate|].
  destruct (property metadata "description" _) as [e|description];
    [discriminate|].
  intros H. inversion H; subst. clear H.
  cbn [PageContent.headings PageContent.images PageContent.links].
  destruct (links_of_matches _ _ _ _ L) as [M F].
  split; [apply scanHeadings_Forall; exact heading_at_level|].
  split; [apply scan_Forall; exact image_at_wellformed|].
  split; [exact M|].
  assert (W : Forall (fun m => fst m <> "" /\ snd m <> "")
                (scan link_at 0 markdown)).
  { apply scan_Forall. intros s [text href] n E.
    destruct (link_at_wellformed _ _ _ _ E) as (A & B & _). now split. }
  rewrite <- M in W. rewrite Forall_map in W. cbn [fst snd] in W.
  rewrite Forall_forall in *. intros l Hl.
  destruct (W l Hl) as [A B]. split; [exact A|]. split; [exact B|].
  exact (F l Hl).
Qed.

Lemma analyzePageContent_elements_witness :
  exists pc,
    analyzePageContent example_runtime example_markdown (Some example_metadata)
    = inr pc
    /\ Forall (fun h => (1 <= Heading.level h <= 6)%nat)
         (PageContent.headings pc).
Proof.
  destruct (analyzePageContent example_runtime example_markdown
              (Some example_metadata)) as [e|pc] eqn:E;
    [vm_compute in E; discriminate E|].
  exists pc. split; [reflexivity|].
  exact (proj1 (analyzePageContent_elements _ _ _ _ E)).
Defined.

(** ** When the content extractor returns *)

Lemma links_of_relative rt metadata ms :
  existsb isAbsolute ms = false ->
  exists links, links_of rt metadata ms = inr links.
Proof.
  induction ms as [|[text href] ms IH]; cbn [existsb links_of];
    [now exists []|].
  unfold isAbsolute at 1. cbn [snd link_of]. intros H.
  apply orb_false_elim in H as [H1 H2]. rewrite H1. cbn [negb rbind].
  destruct (IH H2) as [ls ->]. cbn [rbind]. now eexists.
Qed.

Lemma links_of_parsed rt m u ms :
  URL_parse rt (str_or (Metadata.url m) "") = Some u ->
  exists links, links_of rt (Some m) ms = inr links.
Proof.
  intros Hu. induction ms as [|[text href] ms IH]; cbn [links_of];
    [now exists []|].
  rewrite (link_of_parsed _ _ _ _ _ Hu). cbn [rbind].
  destruct IH as [ls ->]. cbn [rbind]. now eexists.
Qed.

Lemma links_of_undefined rt ms :
  existsb isAbsolute ms = true ->
  links_of rt None ms = inl (undefinedProperty "url").
Proof.
  induction ms as [|[text href] ms IH]; cbn [existsb links_of];
    [discriminate|].
  unfold isAbsolute at 1. cbn [snd link_of].
  destruct (startsWith "http" href); cbn [negb orb rbind property];
    [reflexivity|].
  intros H. now rewrite (IH H).
Qed.

Lemma links_of_returns rt markdown m :
  existsb isAbsolute (scan link_at 0 markdown) = false
  \/ URL_parse rt (str_or (Metadata.url m) "") <> None ->
  exists links, links_of rt (Some m) (scan link_at 0 markdown) = inr links.
Proof.
  intros [H|H]; [exact (links_of_relative _ _ _ H)|].
  destruct (URL_parse rt (str_or (Metadata.url m) "")) as [u|] eqn:U;
    [|now contradiction H].
  exact (links_of_parsed _ _ _ _ U).
Qed.

Lemma analyzePageContent_defined rt markdown metadata pc :
  analyzePageContent rt markdown metadata = inr pc ->
  exists m,
    metadata = Some m
    /\ (existsb isAbsolute (scan link_at 0 markdown) = false
        \/ URL_parse rt (str_or (Metadata.url m) "") <> None).
Proof.
  unfold analyzePageContent. destruct metadata as [m|].
  - intros H. exists m. split; [reflexivity|].
    destruct (existsb isAbsolute (scan link_at 0 markdown)) eqn:A;
      [|now left].
    destruct (URL_parse rt (str_or (Metadata.url m) "")) eqn:U;
      [right; discriminate|].
    rewrite (links_of_throws _ _ _ U A) in H. discriminate H.
  - destruct (existsb isAbsolute (scan link_at 0 markdown)) eqn:A.
    + rewrite (links_of_undefined _ _ A). discriminate.
    + destruct (links_of_relative rt None _ A) as [links ->]. discriminate.
Qed.

(** X3. With the metadata of the scrape defined, [analyzePageContent]
    returns exactly when the page has no link whose href starts with [http]
    or the [url] of the metadata parses; it then takes the title and the
    description from the metadata, the empty string standing for a missing
    one.  When it throws, it throws the [TypeError] of the URL parser. *)
Theorem analyzePageContent_returns rt markdown m :
  let parses := URL_parse rt (str_or (Metadata.url m) "") <> None in
  let relative := existsb isAbsolute (scan link_at 0 markdown) = false in
  (relative \/ parses ->
   exists pc,
     analyzePageContent rt markdown (Some m) = inr pc
     /\ PageContent.title pc = str_or (Metadata.title m) ""
     /\ PageContent.metaDescription pc = str_or (Metadata.description m) "")
  /\ (~ (relative \/ parses) ->
      analyzePageContent rt markdown (Some m) = inl invalidURL).
Proof.
  cbv zeta. split.
  - intros H. destruct (links_of_returns _ _ _ H) as [links L].
    unfold analyzePageContent. rewrite L.
    cbn [rbind property]. eexists. split; [reflexivity|].
    split; reflexivity.
  - intros H. unfold analyzePageContent.
    rewrite links_of_throws; [reflexivity| |].
    + destruct (URL_parse rt (str_or (Metadata.url m) "")); [|reflexivity].
      exfalso. apply H. right. discriminate.
    + destruct (existsb isAbsolute (scan link_at 0 markdown)); [reflexivity|].
      exfalso. apply H. now left.
Qed.

Lemma analyzePageContent_returns_witness :
  exists pc,
    analyzePageContent example_runtime example_markdown (Some example_metadata)
    = inr pc
    /\ PageContent.title pc = str_or (Metadata.title example_metadata) "".
Proof.
  destruct (proj1 (analyzePageContent_returns example_runtime example_markdown
                     example_metadata)) as (pc & E & T & _).
  - right. vm_compute. discriminate.
  - exists pc. split; [exact E | exact T].
Defined.

(** X4. With the metadata of the scrape undefined, [analyzePageContent]
    always throws the [TypeError] of a property read on [undefined]: of
    [url] when the page has a link whose href starts with [http], of
    [title] when it has none. *)
Theorem analyzePageContent_undefined_metadata rt markdown :
  analyzePageContent rt markdown None
  = inl (undefinedProperty
           (if existsb isAbsolute (scan link_at 0 markdown) then "url"
            else "title")).
Proof.
  unfold analyzePageContent.
  destruct (existsb isAbsolute (scan link_at 0 markdown)) eqn:E.
  - now rewrite (links_of_undefined _ _ E).
  - destruct (links_of_relative rt None _ E) as [links ->]. reflexivity.
Qed.

(** ** Words *)

Lemma split_runs_no_word sep s : forall cur inRun,
  (inRun = true -> cur = "") ->
  List.length
    (filter (fun word => (0 <? String.length word)%nat)
       (split_runs sep cur inRun s)) = 0%nat
  <-> cur = "" /\ dropWhile sep s = "".
Proof.
  induction s as [|c s IH]; intros cur inRun Inv; cbn [split_runs dropWhile].
  - destruct cur; cbn; split; intros H; try discriminate; try tauto.
    now destruct H.
  - destruct (sep c) eqn:E.
    + destruct inRun.
      * rewrite (IH "" true (fun _ => eq_refl)), (Inv eq_refl). tauto.
      * cbn [filter]. destruct cur as [|a cur].
        -- cbn [String.length Nat.ltb Nat.leb].
           rewrite (IH "" true (fun _ => eq_refl)). tauto.
        -- cbn. split; [discriminate|]. intros [H _]. discriminate H.
    + rewrite (IH (cur ++ String c "") false) by discriminate.
      split; intros [H D]; [destruct cur; discriminate H | discriminate D].
Qed.

(** X5. A page has no word exactly when its markdown holds nothing but
    whitespace, and exactly then (for a markdown of a length that a string
    can have) the readability score of its content is [NaN]. *)
Theorem analyzePageContent_blank rt markdown metadata pc :
  analyzePageContent rt markdown metadata = inr pc ->
  Z.of_nat (String.length markdown) < 2 ^ 53 ->
  (PageContent.wordCount pc = 0%nat <-> dropWhile isWhitespace markdown = "")
  /\ (PageContent.readabilityScore pc = S754_nan
      <-> dropWhile isWhitespace markdown = "").
Proof.
  intros H Hlen. destruct (analyzePageContent_inr _ _ _ _ H) as [-> ->].
  assert (W : countWords markdown = 0%nat
              <-> dropWhile isWhitespace markdown = "").
  { unfold countWords, split.
    rewrite (split_runs_no_word isWhitespace markdown "" false)
      by discriminate.
    tauto. }
  split; [exact W|]. rewrite <- W. split.
  - intros N. destruct (countWords markdown) as [|n] eqn:C; [reflexivity|].
    exfalso.
    assert (F : fleschEase (S n) (countSentences markdown) <> S754_nan).
    { pose proof (countWords_bound markdown).
      pose proof (countSentences_bounds markdown) as [B1 B2].
      apply fleschEase_not_nan; lia. }
    destruct (clamp_range _ F) as [R _].
    unfold readability in N. rewrite N in R. discriminate R.
  - intros ->. apply readability_no_words.
Qed.

Lemma analyzePageContent_blank_witness :
  exists pc,
    analyzePageContent example_runtime "   " (Some example_metadata) = inr pc
    /\ PageContent.readabilityScore pc = S754_nan.
Proof.
  destruct (analyzePageContent example_runtime "   " (Some example_metadata))
    as [e|pc] eqn:E; [vm_compute in E; discriminate E|].
  exists pc. split; [reflexivity|].
  apply (analyzePageContent_blank _ _ _ _ E); [vm_compute|]; reflexivity.
Defined.
(** ** The errors of the pipeline *)

Lemma property_error {A} metadata p (get : Metadata.t -> A) e :
  property metadata p get = inl e -> e = undefinedProperty p.
Proof. destruct metadata; cbn; intros H; inversion H. reflexivity. Qed.

Lemma links_of_error rt metadata ms e :
  links_of rt metadata ms = inl e -> surfaced e.
Proof.
  induction ms as [|[text href] ms IH]; cbn [links_of]; [discriminate|].
  unfold rbind at 1.
  destruct (link_of rt metadata (text, href)) as [e1|l] eqn:L.
  - intros H. inversion H; subst. clear H.
    unfold link_of in L. destruct (negb (startsWith "http" href)); [discriminate|].
    unfold rbind in L.
    destruct (property metadata "url" Metadata.url) as [e2|url] eqn:P.
    + inversion L; subst. right. right. eexists.
      exact (property_error _ _ _ _ P).
    + unfold new_URL in L. destruct (URL_parse rt (str_or url ""));
        inversion L. now left.
  - unfold rbind. destruct (links_of rt metadata ms) as [e1|ls];
      [|discriminate].
    intros H. inversion H; subst. now apply IH.
Qed.

Lemma analyzePageContent_error rt markdown metadata e :
  analyzePageContent rt markdown metadata = inl e -> surfaced e.
Proof.
  unfold analyzePageContent, rbind.
  destruct (links_of rt metadata _) as [e1|links] eqn:L.
  - intros H. inversion H; subst. exact (links_of_error _ _ _ _ L).
  - destruct (property metadata "title" _) as [e1|title] eqn:T.
    + intros H. inversion H; subst. right. right. eexists.
      exact (property_error _ _ _ _ T).
    + destruct (property metadata "description" _) as [e1|d] eqn:D;
        [|discriminate].
      intros H. inversion H; subst. right. right. eexists.
      exact (property_error _ _ _ _ D).
Qed.

Lemma analyzeStructuredData_error markdown metadata e :
  analyzeStructuredData markdown metadata = inl e -> surfaced e.
Proof.
  unfold analyzeStructuredData, rbind.
  destruct (includes "schema.org" markdown); [discriminate|].
  destruct (includes "application/ld+json" markdown); [discriminate|].
  destruct (property metadata "jsonLd" hasJsonLd) as [e1|b] eqn:P;
    [|discriminate].
  intros H. inversion H; subst. right. right. eexists.
  exact (property_error _ _ _ _ P).
Qed.

Lemma analyzeSocialMedia_error metadata e :
  analyzeSocialMedia metadata = inl e -> surfaced e.
Proof.
  unfold analyzeSocialMedia, rbind.
  destruct (property metadata "ogTitle" _) as [e1|m] eqn:P; [|discriminate].
  intros H. inversion H; subst. right. right. eexists.
  exact (property_error _ _ _ _ P).
Qed.

Ltac no_failure H :=
  first [ rewrite progress_run in H; discriminate H
        | unfold ret in H; discriminate H ].

Lemma reported_atMost onProgress percent limit :
  percent <= limit -> Forall (atMost limit) (reported onProgress percent).
Proof. intros H. destruct onProgress; repeat constructor. exact H. Qed.

Ltac bounded :=
  repeat first
    [ assumption
    | apply Forall_nil
    | apply reported_atMost; lia
    | apply Forall_app; split
    | apply Forall_cons; [exact I|] ].

Ltac logged :=
  rewrite ?extend_extend; cbn [extend log]; eexists;
  split; [reflexivity | bounded].

Lemma analyzeWebsite_inl rt url onProgress w w' e :
  analyzeWebsite rt url onProgress w = (w', inl e) ->
  surfaced e
  /\ exists evs,
       log w' = (log w ++ evs ++ [ConsoleError "SEO analysis error:" e])%list
       /\ Forall (atMost 80) evs.
Proof.
  unfold analyzeWebsite, try_catch.
  match goal with |- context [match ?body w with _ => _ end] =>
    destruct (body w) as [w1 [e1|a]] eqn:B end.
  2: { unfold ret. discriminate. }
  cbv [bind console_error emit throw]. intros H. inversion H; subst. clear H.
  cbn [log].
  assert (S : surfaced e
              /\ exists evs, log w1 = (log w ++ evs)%list
                             /\ Forall (atMost 80) evs).
  2: { destruct S as [S (evs & -> & F)]. split; [exact S|]. exists evs.
       split; [now rewrite app_assoc | exact F]. }
  apply bind_inl in B as [B | (u & w2 & Step & B)].
  { lifted B E. unfold new_URL in E. destruct (URL_parse rt url); inversion E.
    split; [now left|]. exists []. split; [now rewrite app_nil_r | constructor]. }
  lifted Step E. clear E.
  apply bind_inl in B as [B | (? & w3 & Step & B)]; [no_failure B|].
  run_progress Step.
  apply bind_inl in B as [B | (scraped & w4 & Step & B)].
  { rewrite scrapeWebsite_run in B.
    destruct (blink_data_scrape rt _); inversion B; subst.
    split; [right; now left|]. logged. }
  rewrite scrapeWebsite_run in Step.
  destruct (blink_data_scrape rt _); inversion Step; subst; clear Step.
  apply bind_inl in B as [B | (? & w5 & Step & B)]; [no_failure B|].
  run_progress Step.
  apply bind_inl in B as [B | (data & w6 & Step & B)].
  { rewrite getPageSpeedInsights_run in B. discriminate B. }
  rewrite getPageSpeedInsights_run in Step.
  apply pair_equal_spec in Step as [<- _].
  assert (He : Forall (atMost 80) (pageSpeedErrors rt (URL.toString u))).
  { unfold pageSpeedErrors.
    destruct (blink_data_fetch rt _); repeat constructor. }
  apply bind_inl in B as [B | (? & w7 & Step & B)]; [no_failure B|].
  run_progress Step.
  apply bind_inl in B as [B | (pc & w8 & Step & B)].
  { lifted B E. split; [exact (analyzePageContent_error _ _ _ _ E)|]. logged. }
  lifted Step E. clear E.
  apply bind_inl in B as [B | (? & w9 & Step & B)]; [no_failure B|].
  run_progress Step.
  apply bind_inl in B as [B | (rep & w10 & Step & B)].
  { lifted B E.
    split; [destruct data; inversion E; right; right; eexists; reflexivity|].
    logged. }
  lifted Step E. clear E.
  apply bind_inl in B as [B | (? & w11 & Step & B)]; [no_failure B|].
  run_progress Step.
  apply bind_inl in B as [B | (sd & w12 & Step & B)].
  { lifted B E. split; [exact (analyzeStructuredData_error _ _ _ E)|]. logged. }
  lifted Step E. clear E.
  apply bind_inl in B as [B | (sm & w13 & Step & B)].
  { lifted B E. split; [exact (analyzeSocialMedia_error _ _ E)|]. logged. }
  lifted Step E. clear E.
  apply bind_inl in B as [B | (? & w14 & Step & B)]; [no_failure B|].
  run_progress Step.
  apply bind_inl in B as [B | (? & w15 & Step & B)]; [no_failure B|].
  no_failure B.
Qed.

(** X6. A run that returns has parsed the URL, called the scrape
    collaborator once with the serialized URL, then the performance API
    once, and reported the progress 10, 30, 60, 70, 80, 90, 100 in this
    order (when a callback is given); its only other event can be the
    [console.error] of a rejected fetch, right after the request.  It has
    drawn seven random numbers when it fell back on the mock report, and
    none otherwise.  The [url] of the result is the serialized URL. *)
Theorem analyzeWebsite_events rt url onProgress w w' r :
  analyzeWebsite rt url onProgress w = (w', inr r) ->
  exists u,
    URL_parse rt url = Some u
    /\ AuditResult.url r = URL.toString u
    /\ log w' = (log w ++ eventsOfRun rt onProgress (URL.toString u))%list
    /\ draws w' = (draws w + drawn rt (URL.toString u))%nat.
Proof.
  intros H. apply analyzeWebsite_inr in H
    as (u & scraped & report & pc & sd & sm & Hu & _ & _ & _ & _ & _ & -> & ->).
  exists u. repeat split. exact Hu.
Qed.

Lemma analyzeWebsite_events_witness :
  exists w' r,
    analyzeWebsite example_runtime "https://example.com/" true start = (w', inr r)
    /\ exists u,
         URL_parse example_runtime "https://example.com/" = Some u
         /\ AuditResult.url r = URL.toString u
         /\ log w'
            = (log start ++ eventsOfRun example_runtime true (URL.toString u))%list
         /\ draws w'
            = (draws start + drawn example_runtime (URL.toString u))%nat.
Proof.
  destruct (analyzeWebsite example_runtime "https://example.com/" true start)
    as [w' [e|r]] eqn:E; [vm_compute in E; discriminate E|].
  exists w', r. split; [reflexivity|].
  exact (analyzeWebsite_events _ _ _ _ _ _ E).
Defined.

(** X7. When [analyzeWebsite] fails, the error is the [TypeError] of the
    URL parser, the fixed [Error] of a failed scrape, or the [TypeError] of
    a property read on [undefined]: an error thrown by a collaborator never
    reaches the caller.  The last event of the run is the [console.error] of
    that error, and no progress above 80 has been reported. *)
Theorem analyzeWebsite_failure rt url onProgress w w' e :
  analyzeWebsite rt url onProgress w = (w', inl e) ->
  (e = invalidURL \/ e = scrapeError \/ exists p, e = undefinedProperty p)
  /\ (exists evs,
        newEvents w w' = (evs ++ [ConsoleError "SEO analysis error:" e])%list)
  /\ forall percent, In (Progress percent) (newEvents w w') -> percent <= 80.
Proof.
  intros H. destruct (analyzeWebsite_inl _ _ _ _ _ _ H) as (S & evs & L & F).
  rewrite (newEvents_app _ _ _ L). split; [exact S|].
  split; [now exists evs|].
  intros percent Hin. apply in_app_or in Hin as [Hin|[Hin|[]]].
  - rewrite Forall_forall in F. exact (F _ Hin).
  - discriminate Hin.
Qed.

Lemma analyzeWebsite_failure_witness :
  exists w' e,
    analyzeWebsite offline_runtime "https://example.com/" true start = (w', inl e)
    /\ (e = invalidURL \/ e = scrapeError \/ exists p, e = undefinedProperty p).
Proof.
  destruct (analyzeWebsite offline_runtime "https://example.com/" true start)
    as [w' [e|r]] eqn:E; [|vm_compute in E; discriminate E].
  exists w', e. split; [reflexivity|].
  exact (proj1 (analyzeWebsite_failure _ _ _ _ _ _ E)).
Defined.

(** X8. The result of a run is consistent with itself: its three arrays are
    those of the factor rules on its own page content and technical metrics,
    its score is computed from its own metrics and negative factors, its
    metrics are built from its own URL and page content, and its page
    content, structured data and social media come from one scrape of that
    URL. *)
Theorem analyzeWebsite_result rt url onProgress w w' r :
  analyzeWebsite rt url onProgress w = (w', inr r) ->
  let factors :=
    analyzeSEOFactors rt (AuditResult.pageContent r)
      (AuditResult.technicalMetrics r) in
  AuditResult.positiveFactors r = Factors.positiveFactors factors
  /\ AuditResult.negativeFactors r = Factors.negativeFactors factors
  /\ AuditResult.recommendations r = Factors.recommendations factors
  /\ AuditResult.score r
     = overallScore (AuditResult.technicalMetrics r)
         (Factors.negativeFactors factors)
  /\ exists scraped report,
       blink_data_scrape rt (AuditResult.url r) = inr scraped
       /\ analyzePageContent rt (Scrape.markdown scraped)
            (Scrape.metadata scraped) = inr (AuditResult.pageContent r)
       /\ analyzeStructuredData (Scrape.markdown scraped)
            (Scrape.metadata scraped) = inr (AuditResult.structuredData r)
       /\ analyzeSocialMedia (Scrape.metadata scraped)
          = inr (AuditResult.socialMedia r)
       /\ AuditResult.technicalMetrics r
          = buildTechnicalMetrics (AuditResult.url r)
              (Scrape.metadata scraped) report (AuditResult.pageContent r).
Proof.
  intros H. apply analyzeWebsite_inr in H
    as (u & scraped & report & pc & sd & sm
        & _ & Hs & _ & Hpc & Hsd & Hsm & _ & ->).
  cbv zeta. unfold auditOf.
  cbn [AuditResult.positiveFactors AuditResult.negativeFactors
       AuditResult.recommendations AuditResult.score AuditResult.url
       AuditResult.pageContent AuditResult.technicalMetrics
       AuditResult.structuredData AuditResult.socialMedia].
  repeat split. exists scraped, report. repeat split; assumption.
Qed.

Lemma analyzeWebsite_result_witness :
  exists w' r,
    analyzeWebsite example_runtime "https://example.com/" true start = (w', inr r)
    /\ AuditResult.negativeFactors r
       = Factors.negativeFactors
           (analyzeSEOFactors example_runtime (AuditResult.pageContent r)
              (AuditResult.technicalMetrics r)).
Proof.
  destruct (analyzeWebsite example_runtime "https://example.com/" true start)
    as [w' [e|r]] eqn:E; [vm_compute in E; discriminate E|].
  exists w', r. split; [reflexivity|].
  exact (proj1 (proj2 (analyzeWebsite_result _ _ _ _ _ _ E))).
Defined.

(** X9. [analyzeWebsite] returns exactly when the URL parses, the scrape
    of the serialized URL succeeds and has metadata, the page has no link
    whose href starts with [http] or the [url] of the metadata parses, and
    the performance API has not answered with status 200 and no body.  A
    failing or rejected performance request alone never makes it fail. *)
Theorem analyzeWebsite_returns rt url onProgress w :
  (exists w' r, analyzeWebsite rt url onProgress w = (w', inr r))
  <-> exists u scraped m,
        URL_parse rt url = Some u
        /\ blink_data_scrape rt (URL.toString u) = inr scraped
        /\ Scrape.metadata scraped = Some m
        /\ (existsb isAbsolute (scan link_at 0 (Scrape.markdown scraped))
            = false
            \/ URL_parse rt (str_or (Metadata.url m) "") <> None)
        /\ forall response,
             blink_data_fetch rt (pageSpeedRequest (URL.toString u))
             = inr response ->
             Fetch.status response = 200 -> Fetch.body response <> None.
Proof.
  split.
  - intros (w' & r & H). apply analyzeWebsite_inr in H
      as (u & scraped & report & pc & sd & sm
          & Hu & Hs & Hd & Hpc & _ & _ & _ & _).
    destruct (analyzePageContent_defined _ _ _ _ Hpc) as (m & Hm & Hl).
    exists u, scraped, m. repeat split; try assumption.
    intros response Hf Hst Hb. unfold pageSpeedValue in Hd.
    rewrite Hf, Hst, Hb in Hd. discriminate Hd.
  - intros (u & scraped & m & Hu & Hs & Hm & Hl & Hb).
    destruct (links_of_returns rt _ m Hl) as [links L].
    assert (Hd : exists report,
               pageSpeedValue rt (URL.toString u) (draws w) = Some report).
    { unfold pageSpeedValue.
      destruct (blink_data_fetch rt _) as [e|response] eqn:Hf;
        [now eexists|].
      destruct (Fetch.status response =? 200) eqn:St; [|now eexists].
      apply Z.eqb_eq in St. specialize (Hb response eq_refl St).
      destruct (Fetch.body response) as [report|]; [now eexists|].
      now contradiction Hb. }
    destruct Hd as [report Hd].
    assert (Hsd : exists sd,
               analyzeStructuredData (Scrape.markdown scraped) (Some m)
               = inr sd).
    { unfold analyzeStructuredData.
      destruct (includes "schema.org" _); [now eexists|].
      destruct (includes "application/ld+json" _); now eexists. }
    destruct Hsd as [sd Hsd].
    do 2 eexists. apply analyzeWebsite_inr.
    exists u, scraped, report. eexists. exists sd. eexists.
    split; [exact Hu|]. split; [exact Hs|]. split; [exact Hd|].
    rewrite Hm.
    split; [unfold analyzePageContent; rewrite L; reflexivity|].
    split; [exact Hsd|].
    split; [reflexivity|]. split; reflexivity.
Qed.

Lemma analyzeWebsite_returns_witness :
  exists w' r,
    analyzeWebsite example_runtime "https://example.com/" true start
    = (w', inr r).
Proof.
  apply (proj2 (analyzeWebsite_returns example_runtime "https://example.com/"
                  true start)).
  destruct (example_URL_parse "https://example.com/") as [u|] eqn:U;
    [|vm_compute in U; discriminate U].
  exists u, (Scrape.mk example_markdown (Some example_metadata)),
    example_metadata.
  vm_compute in U. inversion U; subst.
  split; [reflexivity|]. split; [reflexivity|]. split; [reflexivity|].
  split; [right; vm_compute; discriminate|].
  intros response H. vm_compute in H. inversion H; subst. discriminate.
Defined.

(** ** What the factor rules file *)

Ltac rule_cases :=
  unfold titleAnalysis, metaDescriptionAnalysis, headingStructureAnalysis,
    imageOptimizationAnalysis, contentLengthAnalysis, httpsAnalysis,
    performanceAnalysis;
  repeat match goal with
         | |- context [if ?b then _ else _] => destruct b eqn:?
         end.

Lemma analyzeSEOFactors_contributions rt pc tm :
  analyzeSEOFactors rt pc tm
  = fold_left append
      (map contribution (concerns rt pc tm)) Factors.empty.
Proof.
  assert (R : forall rule, In rule (concerns rt pc tm) ->
              forall fs, rule fs = append fs (contribution rule))
    by (intros rule Hr; exact (rule_appends rt pc tm rule Hr)).
  unfold analyzeSEOFactors, concerns. cbn [map fold_left].
  rewrite (R (performanceAnalysis rt tm)) by (cbn; tauto).
  rewrite (R (httpsAnalysis tm)) by (cbn; tauto).
  rewrite (R (contentLengthAnalysis rt pc)) by (cbn; tauto).
  rewrite (R (imageOptimizationAnalysis rt pc)) by (cbn; tauto).
  rewrite (R (headingStructureAnalysis rt pc)) by (cbn; tauto).
  rewrite (R (metaDescriptionAnalysis rt pc)) by (cbn; tauto).
  rewrite (R (titleAnalysis rt pc)) by (cbn; tauto).
  reflexivity.
Qed.

Lemma contribution_sorted rt pc tm rule :
  In rule (concerns rt pc tm) -> sorted (contribution rule).
Proof.
  unfold concerns, contribution, sorted, passes, fails, advises.
  intros [<-|[<-|[<-|[<-|[<-|[<-|[<-|[]]]]]]]]; rule_cases;
    cbn; repeat first [split | apply Forall_nil | apply Forall_cons];
    cbn; auto.
Qed.

Lemma append_sorted fs gs : sorted fs -> sorted gs -> sorted (append fs gs).
Proof.
  unfold sorted, append. cbn. intros (A & B & C) (A' & B' & C').
  repeat split; apply Forall_app; now split.
Qed.

Lemma fold_append_sorted gs : forall fs,
  sorted fs -> Forall sorted gs -> sorted (fold_left append gs fs).
Proof.
  induction gs as [|g gs IH]; intros fs Hf Hg; cbn [fold_left]; [exact Hf|].
  inversion Hg; subst. apply IH; [now apply append_sorted | assumption].
Qed.

(** X10. Whatever the page and the metrics, every positive factor has the
    status [pass], every negative factor the status [fail] or [warning],
    and every recommendation has no status, no value and a high impact. *)
Theorem analyzeSEOFactors_sorted rt pc tm :
  let factors := analyzeSEOFactors rt pc tm in
  Forall passes (Factors.positiveFactors factors)
  /\ Forall fails (Factors.negativeFactors factors)
  /\ Forall advises (Factors.recommendations factors).
Proof.
  cbv zeta. rewrite analyzeSEOFactors_contributions.
  apply fold_append_sorted.
  - repeat split; constructor.
  - rewrite Forall_map, Forall_forall. intros rule Hr.
    exact (contribution_sorted rt pc tm rule Hr).
Qed.

(** X11. Every rule but the image rule files one factor as positive or
    negative, and the image rule does so for a page with images: a result
    has six such factors without images and seven with.  It has one
    recommendation for a title present but outside 30..60 characters and
    one for a performance score not at least 80, hence two at most, each
    next to a negative factor. *)
Theorem analyzeSEOFactors_counts rt pc tm :
  let factors := analyzeSEOFactors rt pc tm in
  let title := PageContent.title pc in
  let len := String.length title in
  (List.length (Factors.positiveFactors factors)
   + List.length (Factors.negativeFactors factors)
   = 6 + (if (0 <? List.length (PageContent.images pc))%nat then 1 else 0))%nat
  /\ (List.length (Factors.recommendations factors)
      = (if negb (String.eqb title "")
            && negb ((30 <=? len) && (len <=? 60))%nat then 1 else 0)
        + (if geb (TechnicalMetrics.performance tm) (of_Z 80) then 0 else 1))%nat
  /\ (List.length (Factors.recommendations factors)
      <= List.length (Factors.negativeFactors factors))%nat.
Proof.
  cbv zeta. rewrite analyzeSEOFactors_contributions.
  unfold concerns. cbn [map fold_left]. unfold append.
  cbn [Factors.positiveFactors Factors.negativeFactors Factors.recommendations
       Factors.empty app].
  rewrite !length_app.
  assert (T : exists p n r,
             List.length (Factors.positiveFactors (contribution (titleAnalysis rt pc))) = p
             /\ List.length (Factors.negativeFactors (contribution (titleAnalysis rt pc))) = n
             /\ List.length (Factors.recommendations (contribution (titleAnalysis rt pc))) = r
             /\ (p + n = 1 /\ r <= n)%nat
             /\ r = (if negb (String.eqb (PageContent.title pc) "")
                        && negb ((30 <=? String.length (PageContent.title pc))
                                 && (String.length (PageContent.title pc) <=? 60))%nat
                     then 1 else 0)%nat).
  { unfold contribution, titleAnalysis.
    destruct (String.eqb (PageContent.title pc) ""); cbn [negb andb];
      [do 3 eexists; cbn; repeat split; lia|].
    destruct ((30 <=? _) && (_ <=? 60))%nat; cbn [negb];
      do 3 eexists; cbn; repeat split; lia. }
  assert (P : exists p n r,
             List.length (Factors.positiveFactors (contribution (performanceAnalysis rt tm))) = p
             /\ List.length (Factors.negativeFactors (contribution (performanceAnalysis rt tm))) = n
             /\ List.length (Factors.recommendations (contribution (performanceAnalysis rt tm))) = r
             /\ (p + n = 1 /\ r <= n)%nat
             /\ r = (if geb (TechnicalMetrics.performance tm) (of_Z 80)
                     then 0 else 1)%nat).
  { unfold contribution, performanceAnalysis.
    destruct (geb (TechnicalMetrics.performance tm) (of_Z 80));
      do 3 eexists; cbn; repeat split; lia. }
  assert (I : exists p n,
             List.length (Factors.positiveFactors (contribution (imageOptimizationAnalysis rt pc))) = p
             /\ List.length (Factors.negativeFactors (contribution (imageOptimizationAnalysis rt pc))) = n
             /\ List.length (Factors.recommendations (contribution (imageOptimizationAnalysis rt pc))) = 0%nat
             /\ (p + n = if (0 <? List.length (PageContent.images pc))%nat
                         then 1 else 0)%nat).
  { unfold contribution, imageOptimizationAnalysis.
    destruct (0 <? List.length (PageContent.images pc))%nat;
      [|do 2 eexists; cbn; repeat split].
    destruct (geb _ (of_Z 90)); do 2 eexists; cbn; repeat split. }
  assert (O : forall rule,
             In rule [metaDescriptionAnalysis rt pc;
                      headingStructureAnalysis rt pc;
                      contentLengthAnalysis rt pc; httpsAnalysis tm] ->
             exists p n,
               List.length (Factors.positiveFactors (contribution rule)) = p
               /\ List.length (Factors.negativeFactors (contribution rule)) = n
               /\ List.length (Factors.recommendations (contribution rule)) = 0%nat
               /\ (p + n = 1)%nat).
  { unfold contribution. intros rule [<-|[<-|[<-|[<-|[]]]]]; rule_cases;
      do 2 eexists; cbn; repeat split. }
  destruct T as (p1 & n1 & r1 & -> & -> & -> & T1 & T2).
  destruct P as (p7 & n7 & r7 & -> & -> & -> & P1 & P2).
  destruct I as (p4 & n4 & -> & -> & -> & I1).
  destruct (O (metaDescriptionAnalysis rt pc)) as (p2 & n2 & -> & -> & -> & O2);
    [cbn; tauto|].
  destruct (O (headingStructureAnalysis rt pc)) as (p3 & n3 & -> & -> & -> & O3);
    [cbn; tauto|].
  destruct (O (contentLengthAnalysis rt pc)) as (p5 & n5 & -> & -> & -> & O5);
    [cbn; tauto|].
  destruct (O (httpsAnalysis tm)) as (p6 & n6 & -> & -> & -> & O6);
    [cbn; tauto|].
  clear O. rewrite <- T2, <- P2.
  destruct (0 <? List.length (PageContent.images pc))%nat; lia.
Qed.

Lemma filed_app title fs gs :
  filed title (fs ++ gs) = filed title fs || filed title gs.
Proof. apply existsb_app. Qed.

Ltac other_rule :=
  match goal with
  | |- context [filed ?t (?array (contribution ?rule))] =>
      replace (filed t (array (contribution rule))) with false
        by (unfold contribution; rule_cases; reflexivity)
  end.

Ltac own_rule :=
  repeat other_rule; unfold contribution;
  unfold titleAnalysis, metaDescriptionAnalysis, headingStructureAnalysis,
    imageOptimizationAnalysis, contentLengthAnalysis, httpsAnalysis,
    performanceAnalysis;
  repeat match goal with
         | |- context [negb ?b] => destruct b eqn:?; cbn [negb]
         end;
  rule_cases; reflexivity.

Lemma analyzeSEOFactors_positive rt pc tm title :
  filed title (Factors.positiveFactors (analyzeSEOFactors rt pc tm))
  = existsb
      (fun rule => filed title (Factors.positiveFactors (contribution rule)))
      (concerns rt pc tm).
Proof.
  rewrite analyzeSEOFactors_contributions. unfold concerns.
  cbn [map fold_left existsb]. unfold append.
  cbn [Factors.positiveFactors Factors.empty app].
  rewrite !filed_app, !orb_assoc, orb_false_r. reflexivity.
Qed.

Lemma analyzeSEOFactors_negative rt pc tm title :
  filed title (Factors.negativeFactors (analyzeSEOFactors rt pc tm))
  = existsb
      (fun rule => filed title (Factors.negativeFactors (contribution rule)))
      (concerns rt pc tm).
Proof.
  rewrite analyzeSEOFactors_contributions. unfold concerns.
  cbn [map fold_left existsb]. unfold append.
  cbn [Factors.negativeFactors Factors.empty app].
  rewrite !filed_app, !orb_assoc, orb_false_r. reflexivity.
Qed.

(** What the arrays say of the page and of its metrics. *)
Lemma analyzeSEOFactors_flags rt pc tm :
  let factors := analyzeSEOFactors rt pc tm in
  filed "HTTPS Enabled" (Factors.positiveFactors factors)
  = TechnicalMetrics.httpsEnabled tm
  /\ filed "HTTPS Not Enabled" (Factors.negativeFactors factors)
     = negb (TechnicalMetrics.httpsEnabled tm)
  /\ filed "Proper H1 Structure" (Factors.positiveFactors factors)
     = (countOf (fun h => (Heading.level h =? 1)%nat)
          (PageContent.headings pc) =? 1)%nat
  /\ filed "Good Performance Score" (Factors.positiveFactors factors)
     = geb (TechnicalMetrics.performance tm) (of_Z 80)
  /\ filed "Adequate Content Length" (Factors.positiveFactors factors)
     = (300 <=? PageContent.wordCount pc)%nat
  /\ filed "Thin Content" (Factors.negativeFactors factors)
     = negb (300 <=? PageContent.wordCount pc)%nat
  /\ filed "Missing Page Title" (Factors.negativeFactors factors)
     = String.eqb (PageContent.title pc) ""
  /\ filed "Missing Meta Description" (Factors.negativeFactors factors)
     = String.eqb (PageContent.metaDescription pc) "".
Proof.
  cbv zeta.
  rewrite !analyzeSEOFactors_positive, !analyzeSEOFactors_negative.
  unfold concerns. cbn [existsb].
  repeat split; own_rule.
Qed.

(** X12. In a result, the flags of the technical metrics and the factor
    arrays agree: [httpsEnabled] says that the serialized URL starts with
    [https://], and exactly then "HTTPS Enabled" is a positive factor, and
    otherwise "HTTPS Not Enabled" a negative one; "Proper H1 Structure" is a
    positive factor exactly when [headingsStructure] holds, "Good
    Performance Score" exactly when [pageSpeed] is at least 80, and "Thin
    Content" is a negative factor exactly below 300 words. *)
Theorem analyzeWebsite_flags rt url onProgress w w' r :
  analyzeWebsite rt url onProgress w = (w', inr r) ->
  let tm := AuditResult.technicalMetrics r in
  let https := startsWith "https://" (AuditResult.url r) in
  TechnicalMetrics.httpsEnabled tm = https
  /\ filed "HTTPS Enabled" (AuditResult.positiveFactors r) = https
  /\ filed "HTTPS Not Enabled" (AuditResult.negativeFactors r) = negb https
  /\ filed "Proper H1 Structure" (AuditResult.positiveFactors r)
     = TechnicalMetrics.headingsStructure tm
  /\ filed "Good Performance Score" (AuditResult.positiveFactors r)
     = geb (TechnicalMetrics.pageSpeed tm) (of_Z 80)
  /\ filed "Thin Content" (AuditResult.negativeFactors r)
     = negb (300 <=? PageContent.wordCount (AuditResult.pageContent r))%nat
  /\ filed "Missing Page Title" (AuditResult.negativeFactors r)
     = String.eqb (PageContent.title (AuditResult.pageContent r)) "".
Proof.
  intros H. apply analyzeWebsite_inr in H
    as (u & scraped & report & pc & sd & sm & _ & _ & _ & _ & _ & _ & _ & ->).
  cbv zeta. unfold auditOf.
  cbn [AuditResult.positiveFactors AuditResult.negativeFactors
       AuditResult.url AuditResult.pageContent AuditResult.technicalMetrics].
  set (tm := buildTechnicalMetrics _ _ _ _).
  destruct (analyzeSEOFactors_flags rt pc tm)
    as (F1 & F2 & F3 & F4 & _ & F6 & F7 & _).
  rewrite F1, F2, F3, F4, F6, F7. repeat split.
Qed.

Lemma analyzeWebsite_flags_witness :
  exists w' r,
    analyzeWebsite example_runtime "https://example.com/" true start = (w', inr r)
    /\ filed "HTTPS Enabled" (AuditResult.positiveFactors r)
       = startsWith "https://" (AuditResult.url r).
Proof.
  destruct (analyzeWebsite example_runtime "https://example.com/" true start)
    as [w' [e|r]] eqn:E; [vm_compute in E; discriminate E|].
  exists w', r. split; [reflexivity|].
  exact (proj1 (proj2 (analyzeWebsite_flags _ _ _ _ _ _ E))).
Defined.

(** ** The page *)

Lemma lastProgress_atMost limit evs : forall current,
  current <= limit -> Forall (atMost limit) evs ->
  lastProgress current evs <= limit.
Proof.
  unfold lastProgress.
  induction evs as [|ev evs IH]; intros current Hc F; cbn [fold_left];
    [exact Hc|].
  inversion F; subst. apply IH; [|assumption].
  destruct ev; cbn in *; assumption.
Qed.

Lemma lastProgress_run rt url :
  lastProgress 0 (eventsOfRun rt true url) = 100.
Proof.
  unfold eventsOfRun, pageSpeedErrors.
  destruct (blink_data_fetch rt (pageSpeedRequest url)); reflexivity.
Qed.

(** X13. [handleAudit] does nothing for an empty URL.  Otherwise it ends
    with [isAnalyzing] off, and either with the result of the analysis, no
    error and the progress 100, or with no result, a progress of at most 80
    and the message of the error, which is one of the three that
    [analyzeWebsite] lets through ([instanceof Error] holding for them): the
    fallback message is never shown. *)
Theorem handleAudit_settles rt instanceofError st w :
  (forall m, instanceofError (TypeError m) = true) ->
  (forall m, instanceofError (Error m) = true) ->
  let st' := fst (handleAudit rt instanceofError st w) in
  let w' := snd (handleAudit rt instanceofError st w) in
  (AppState.url st = "" -> st' = st /\ w' = w)
  /\ (AppState.url st <> "" ->
      AppState.url st' = AppState.url st
      /\ AppState.isAnalyzing st' = false
      /\ ((exists r,
             analyzeWebsite rt (AppState.url st) true w = (w', inr r)
             /\ AppState.auditResult st' = Some r
             /\ AppState.error st' = None
             /\ AppState.progress st' = 100)
          \/ (exists e,
                analyzeWebsite rt (AppState.url st) true w = (w', inl e)
                /\ surfaced e
                /\ AppState.auditResult st' = None
                /\ AppState.error st' = Some (message e)
                /\ AppState.progress st' <= 80))).
Proof.
  intros IT IE. cbv zeta. unfold handleAudit. split.
  - intros ->. cbn. now split.
  - intros N. destruct (String.eqb_spec (AppState.url st) "") as [E|_];
      [now contradiction N|].
    destruct (analyzeWebsite rt (AppState.url st) true w) as [w' [e|r]] eqn:A;
      cbn [fst snd AppState.url AppState.isAnalyzing AppState.auditResult
           AppState.error AppState.progress].
    + split; [reflexivity|]. split; [reflexivity|]. right. exists e.
      destruct (analyzeWebsite_inl _ _ _ _ _ _ A) as (S & evs & L & F).
      split; [reflexivity|]. split; [exact S|]. split; [reflexivity|].
      split.
      * f_equal. clear A L.
        destruct S as [->|[->|[p ->]]]; unfold invalidURL, scrapeError,
          undefinedProperty; now rewrite ?IT, ?IE.
      * rewrite (newEvents_app _ _ _ L).
        apply lastProgress_atMost; [lia|].
        apply Forall_app. split; [exact F|]. repeat constructor.
    + split; [reflexivity|]. split; [reflexivity|]. left. exists r.
      split; [reflexivity|]. split; [reflexivity|]. split; [reflexivity|].
      apply analyzeWebsite_inr in A
        as (u & scraped & report & pc & sd & sm
            & _ & _ & _ & _ & _ & _ & -> & _).
      rewrite newEvents_extend. apply lastProgress_run.
Qed.

Lemma handleAudit_settles_witness :
  let st := AppState.mk "https://example.com/" false None 0 None in
  AppState.isAnalyzing
    (fst (handleAudit example_runtime (fun _ => true) st start)) = false.
Proof.
  cbv zeta.
  refine (proj1 (proj2 (proj2
    (handleAudit_settles example_runtime (fun _ => true)
       (AppState.mk "https://example.com/" false None 0 None) start
       (fun _ => eq_refl) (fun _ => eq_refl)) _))).
  discriminate.
Defined.

(** X14. The colour of a vital is never the gray of an unknown status,
    and a vital that the report does not give, which takes its default
    (2500, 100 or 0.1), is shown as good: each default sits on the
    boundary of the good range. *)
Theorem vitals_status cleanUrl metadata report pageContent :
  let vitals :=
    TechnicalMetrics.coreWebVitals
      (buildTechnicalMetrics cleanUrl metadata report pageContent) in
  (forall value type,
     getStatusColor (getCoreWebVitalStatus value type) <> "text-gray-600")
  /\ (auditValue report Report.largest_contentful_paint = None ->
      getCoreWebVitalStatus (CoreWebVitals.lcp vitals) lcp = "good")
  /\ (auditValue report Report.first_input_delay = None ->
      getCoreWebVitalStatus (CoreWebVitals.fid vitals) fid = "good")
  /\ (auditValue report Report.cumulative_layout_shift = None ->
      getCoreWebVitalStatus (CoreWebVitals.cls vitals) cls = "good").
Proof.
  cbv zeta. unfold buildTechnicalMetrics.
  cbn [TechnicalMetrics.coreWebVitals CoreWebVitals.lcp CoreWebVitals.fid
       CoreWebVitals.cls].
  split.
  - intros value type. unfold getCoreWebVitalStatus.
    destruct type;
      repeat match goal with
             | |- context [if ?b then _ else _] => destruct b
             end; discriminate.
  - repeat split; intros ->; vm_compute; reflexivity.
Qed.

Lemma vitals_status_witness :
  getCoreWebVitalStatus
    (CoreWebVitals.cls
       (TechnicalMetrics.coreWebVitals
          (buildTechnicalMetrics "https://example.com/" None empty_report
             (page_with_title "")))) cls = "good".
Proof.
  exact (proj2 (proj2 (proj2
    (vitals_status "https://example.com/" None empty_report
       (page_with_title "")))) eq_refl).
Defined.

(** X15. The text and the background of a score always have the same
    colour, green exactly for a score of at least 80, and red for a score
    that is [NaN]. *)
Theorem score_colours score :
  (exists band,
     In band ["green"; "yellow"; "red"]
     /\ getScoreColor score = "text-" ++ band ++ "-600"
     /\ getScoreBackground score
        = "bg-" ++ band ++ "-50 border-" ++ band ++ "-200"
     /\ (band = "green" <-> geb score (of_Z 80) = true))
  /\ getScoreColor S754_nan = "text-red-600".
Proof.
  split; [|reflexivity].
  unfold getScoreColor, getScoreBackground.
  destruct (geb score (of_Z 80)); [|destruct (geb score (of_Z 60))].
  - exists "green". cbn. intuition.
  - exists "yellow". cbn. intuition discriminate.
  - exists "red". cbn. intuition discriminate.
Qed.

(** X16. The structured data of a page says [hasSchema] exactly when it
    names types, and exactly then it has no error; a page whose markdown
    mentions [schema.org] or [application/ld+json] has it whatever the
    metadata, undefined included.  The social media of a page say
    [hasOpenGraph] exactly when one of the three Open Graph fields they
    carry is a non-empty string. *)
Theorem structured_and_social markdown metadata :
  (forall sd,
     analyzeStructuredData markdown metadata = inr sd ->
     (StructuredData.types sd <> [] <-> StructuredData.hasSchema sd = true)
     /\ (StructuredData.errors sd = [] <-> StructuredData.hasSchema sd = true))
  /\ (includes "schema.org" markdown || includes "application/ld+json" markdown
      = true ->
      exists sd,
        analyzeStructuredData markdown metadata = inr sd
        /\ StructuredData.hasSchema sd = true)
  /\ (forall sm,
        analyzeSocialMedia metadata = inr sm ->
        SocialMedia.hasOpenGraph sm
        = str_truthy (SocialMedia.ogTitle sm)
          || str_truthy (SocialMedia.ogDescription sm)
          || str_truthy (SocialMedia.ogImage sm)).
Proof.
  split; [|split].
  - intros sd. unfold analyzeStructuredData, rbind.
    destruct (if includes "schema.org" markdown then _ else _)
      as [e|[|]]; [discriminate| |];
      intros H; inversion H; subst; cbn; split; split;
      intros; try reflexivity; try discriminate; congruence.
  - unfold analyzeStructuredData. intros H.
    apply orb_true_iff in H.
    destruct (includes "schema.org" markdown).
    + eexists. split; reflexivity.
    + destruct H as [H|H]; [discriminate|]. rewrite H.
      eexists. split; reflexivity.
  - intros sm. unfold analyzeSocialMedia, rbind.
    destruct metadata as [m|]; cbn [property]; [|discriminate].
    intros H. inversion H; subst. reflexivity.
Qed.
